(** * The guidelines crawler and its document assembler

    A shallow embedding of [src/crawl.py] (the crawler) and [src/build.py]
    (the assembler), followed by the properties of the two programs.

    Conventions of the embedding.
    - A Python [str] is a [string]; every [ascii] stands for one code point
      below 256, and the character classes ([str.isspace], the [\w] and
      [\s] of [re], [str.lower]) follow CPython's tables on that range.
      The one literal of the sources with a code point above 255 (the dash
      of the document's first heading line) is carried as the bytes of the
      source file; no function of the programs inspects it.
    - A Python [set] of strings is a [gset string]; a list is a [list].
    - A dict read with [.get] is a record of [option] fields, [None] for an
      absent key.
    - A function that can raise returns an [option], [None] for the
      exception.
    - The network, the HTML parser, the CSS selector engine, [urljoin] and
      the robots parser are parameters of the crawler. *)

From Stdlib Require Import ZArith NArith Ascii String List Lia Bool.
From stdpp Require Import base decidable option list gmap strings.

Set Warnings "-clear-no-such-hyp".

Local Open Scope string_scope.
Local Open Scope list_scope.

(** ** Part I: the programs *)

(** *** Python string primitives *)

Module Py.

Definition code (c : ascii) : N := N_of_ascii c.

Definition between (lo hi : N) (c : ascii) : bool :=
  ((lo <=? code c) && (code c <=? hi))%N.

(** [str.isspace] on one character, which is also [\s] of [re] and the
    set [str.strip()] removes. *)
Definition isspace (c : ascii) : bool :=
  between 9 13 c || between 28 32 c || between 133 133 c
  || between 160 160 c.

(** ASCII letters, as [c.isascii() and c.isalpha()]. *)
Definition is_ascii_alpha (c : ascii) : bool :=
  between 65 90 c || between 97 122 c.

Definition is_ascii_digit (c : ascii) : bool := between 48 57 c.

(** [\w] of [re] on a [str] pattern: alphanumeric or underscore. *)
Definition is_word (c : ascii) : bool :=
  is_ascii_digit c || is_ascii_alpha c || between 95 95 c
  || between 170 170 c || between 178 179 c || between 181 181 c
  || between 185 186 c || between 188 190 c || between 192 214 c
  || between 216 246 c || between 248 255 c.

Definition is_upper (c : ascii) : bool :=
  between 65 90 c || between 192 214 c || between 216 222 c.

Definition lower_char (c : ascii) : ascii :=
  if is_upper c then ascii_of_N (code c + 32) else c.

(** [s.lower()] *)
Fixpoint lower (s : string) : string :=
  match s with
  | EmptyString => EmptyString
  | String c s' => String (lower_char c) (lower s')
  end.

(** [s.lstrip(chars)], the characters given as a predicate. *)
Fixpoint lstrip_by (p : ascii -> bool) (s : string) : string :=
  match s with
  | EmptyString => EmptyString
  | String c s' => if p c then lstrip_by p s' else s
  end.

Fixpoint rstrip_by (p : ascii -> bool) (s : string) : string :=
  match s with
  | EmptyString => EmptyString
  | String c s' =>
      match rstrip_by p s' with
      | EmptyString => if p c then EmptyString else String c EmptyString
      | r => String c r
      end
  end.

(** [s.strip()] *)
Definition strip (s : string) : string :=
  rstrip_by isspace (lstrip_by isspace s).

(** The characters of [s] that satisfy [p], in order. *)
Fixpoint filter (p : ascii -> bool) (s : string) : string :=
  match s with
  | EmptyString => EmptyString
  | String c s' => if p c then String c (filter p s') else filter p s'
  end.

(** [c in s] for a one-character [c]. *)
Fixpoint mem (c : ascii) (s : string) : bool :=
  match s with
  | EmptyString => false
  | String x s' => Ascii.eqb x c || mem c s'
  end.

Fixpoint forallb (p : ascii -> bool) (s : string) : bool :=
  match s with
  | EmptyString => true
  | String c s' => p c && forallb p s'
  end.

(** The text before the first character that satisfies [p], and the text
    from that character on (empty when there is none). *)
Fixpoint break (p : ascii -> bool) (s : string) : string * string :=
  match s with
  | EmptyString => (EmptyString, EmptyString)
  | String c s' =>
      if p c then (EmptyString, s)
      else let '(a, b) := break p s' in (String c a, b)
  end.

(** [s[n:]] and [s[:n]] for [n >= 0]. *)
Fixpoint drop (n : nat) (s : string) : string :=
  match n, s with
  | O, _ => s
  | S n', EmptyString => EmptyString
  | S n', String _ s' => drop n' s'
  end.

Fixpoint take (n : nat) (s : string) : string :=
  match n, s with
  | O, _ => EmptyString
  | S n', EmptyString => EmptyString
  | S n', String c s' => String c (take n' s')
  end.

(** [s.split(c, 1)] when [c in s]: the text before the first [c] and the
    text after it. *)
Definition split1 (c : ascii) (s : string) : string * string :=
  let '(a, b) := break (Ascii.eqb c) s in (a, drop 1 b).

(** [s.startswith(p)] *)
Fixpoint startswith (p s : string) : bool :=
  match p, s with
  | EmptyString, _ => true
  | String _ _, EmptyString => false
  | String a p', String b s' => Ascii.eqb a b && startswith p' s'
  end.

(** [needle in hay] *)
Fixpoint contains (needle hay : string) : bool :=
  startswith needle hay ||
  match hay with
  | EmptyString => false
  | String _ h => contains needle h
  end.

(** Truth value of a string: non-empty. *)
Definition truthy (s : string) : bool :=
  match s with EmptyString => false | _ => true end.

(** [sep.join(l)] *)
Fixpoint join (sep : string) (l : list string) : string :=
  match l with
  | [] => EmptyString
  | [x] => x
  | x :: l' => x +:+ sep +:+ join sep l'
  end.

Definition nl : string := String (ascii_of_N 10) EmptyString.

(** [re.sub(r"\s+", rep, s)]: [in_run] tells that the previous character
    was white space. *)
Fixpoint sub_space_runs (rep : string) (in_run : bool) (s : string) : string :=
  match s with
  | EmptyString => EmptyString
  | String c s' =>
      if isspace c then
        if in_run then sub_space_runs rep true s'
        else rep +:+ sub_space_runs rep true s'
      else String c (sub_space_runs rep false s')
  end.

(** [re.sub(r"\n{3,}", "\n\n", s)]: [k] counts the newlines of the run
    read so far; a run keeps its first two. *)
Fixpoint squeeze_newlines (k : nat) (s : string) : string :=
  match s with
  | EmptyString => EmptyString
  | String c s' =>
      if Ascii.eqb c (ascii_of_N 10) then
        if Nat.ltb k 2 then String c (squeeze_newlines (S k) s')
        else squeeze_newlines (S k) s'
      else String c (squeeze_newlines 0 s')
  end.

End Py.

(** *** build.py *)

(** [slugify] *)
Definition slugify (s : string) : string :=
  let s := Py.lower (Py.strip s) in
  let s := Py.filter (fun c => Py.is_word c || Py.isspace c || Ascii.eqb c "-") s in
  let s := Py.sub_space_runs "-" false s in
  if Py.truthy s then Py.take 80 s else "section".

(** The anchor rule in the words of the design document: lowercase; strip
    the characters that are not word characters, white space or hyphens;
    collapse white-space runs to one hyphen; truncate to 80 characters; an
    empty result becomes the placeholder. *)
Definition slugify_spec (s : string) : string :=
  let s := Py.lower s in
  let s := Py.filter (fun c => Py.is_word c || Py.isspace c || Ascii.eqb c "-") s in
  let s := Py.sub_space_runs "-" false s in
  let s := Py.take 80 s in
  if Py.truthy s then s else "section".

(** A page of the snapshot, read with [p.get]: [None] is an absent key. The
    values are strings, as the crawler writes them. *)
Record Page := mkPage {
  page_url : option string;
  page_title : option string;
  page_text : option string
}.

(** The snapshot file, read with [data.get]; an absent ["pages"] reads as
    the empty list. *)
Record Snapshot := mkSnapshot {
  snap_start_url : option string;
  snap_fetched_at_utc : option string;
  snap_pages : list Page
}.

(** [x or d] for a string (or absent) [x]. *)
Definition py_or (x : option string) (d : string) : string :=
  match x with
  | Some s => if Py.truthy s then s else d
  | None => d
  end.

(** One turn of the deduplication loop of [build_md] on the pair
    [(seen, uniq)]. *)
Definition dedup_step (acc : gset string * list Page) (p : Page)
  : gset string * list Page :=
  let '(seen, uniq) := acc in
  let u := default "" (page_url p) in
  if Py.truthy u && bool_decide (u ∉ seen)
  then ({[u]} ∪ seen, uniq ++ [p])
  else (seen, uniq).

Definition dedup (pages : list Page) : list Page :=
  snd (fold_left dedup_step pages (∅, [])).

Definition page_heading (p : Page) : string :=
  Py.strip (py_or (page_title p) "Untitled").

Definition toc_line (p : Page) : string :=
  let title := page_heading p in
  let anchor := slugify title in
  "- [" +:+ title +:+ "](#" +:+ anchor +:+ ")".

Definition section_lines (p : Page) : list string :=
  let title := page_heading p in
  let url := Py.strip (default "" (page_url p)) in
  let text := Py.strip (py_or (page_text p) "") in
  [ "## " +:+ title; "_Quelle_: " +:+ url; ""; text; ""; "---"; "" ].

Definition head_lines (fetched_at start_url : string) : list string :=
  [ "# YouTube Creator Policy Guidelines – Master Snapshot";
    "";
    "Build-Datum (UTC): **" +:+ fetched_at +:+ "**";
    "Start-URL: " +:+ start_url;
    "";
    "## Inhaltsverzeichnis";
    "" ].

(** The list [lines] of [build_md] before it is joined. *)
Definition build_md_lines (data : Snapshot) : list string :=
  let pages := snap_pages data in
  let fetched_at := default "" (snap_fetched_at_utc data) in
  let start_url := default "" (snap_start_url data) in
  let uniq := dedup pages in
  let lines := head_lines fetched_at start_url in
  let toc := fold_left (fun toc p => toc ++ [toc_line p]) uniq [] in
  let lines := lines ++ toc in
  let lines := lines ++ [ ""; "---"; "" ] in
  fold_left (fun lines p => lines ++ section_lines p) uniq lines.

(** [build_md] *)
Definition build_md (data : Snapshot) : string :=
  Py.join Py.nl (build_md_lines data).

(** *** urllib.parse

    The functions of the standard library that the crawler calls, after
    [Lib/urllib/parse.py] of CPython 3.10 and 3.11. [None] is [ValueError].
    Recent releases also validate the text between the square brackets of
    a network location and raise on more inputs; on a URL whose network
    location has no square bracket they agree with these definitions.
    [urlsplit] also checks a network location that is not ASCII: it raises
    when the NFKC form of the location holds one of [/?#@:] that the
    location does not hold itself. No character below 256 has such a form,
    so that on the strings of this development the check never raises, and
    it is left out; a Python string with other characters can fail it.
    The statement that the URL functions return is therefore made for
    ASCII URLs, for which the library skips the check. *)

Module Urllib.

Record ParseResult := mkParseResult {
  scheme : string;
  netloc : string;
  path : string;
  params : string;
  query : string;
  fragment : string
}.

Definition uses_netloc : list string :=
  [ ""; "ftp"; "http"; "gopher"; "nntp"; "telnet"; "imap"; "wais"; "file";
    "mms"; "https"; "shttp"; "snews"; "prospero"; "rtsp"; "rtspu"; "rsync";
    "svn"; "svn+ssh"; "sftp"; "nfs"; "git"; "git+ssh"; "ws"; "wss" ].

Definition uses_params : list string :=
  [ ""; "ftp"; "hdl"; "prospero"; "http"; "imap"; "https"; "shttp"; "rtsp";
    "rtspu"; "sip"; "sips"; "mms"; "sftp"; "tel" ].

Definition in_list (s : string) (l : list string) : bool :=
  existsb (String.eqb s) l.

Definition scheme_char (c : ascii) : bool :=
  Py.is_ascii_alpha c || Py.is_ascii_digit c || Py.mem c "+-.".

(** The characters of [_WHATWG_C0_CONTROL_OR_SPACE]. *)
Definition c0_control_or_space (c : ascii) : bool := (Py.code c <=? 32)%N.

(** The characters of [_UNSAFE_URL_BYTES_TO_REMOVE]. *)
Definition unsafe_byte (c : ascii) : bool :=
  Py.between 9 10 c || Py.between 13 13 c.

(** The scheme step of [urlsplit]: the scheme and the rest of the URL. *)
Definition split_scheme (url : string) : string * string :=
  let '(pre, post) := Py.break (Ascii.eqb ":") url in
  match pre, post with
  | String c0 _, String _ rest =>
      if Py.is_ascii_alpha c0 && Py.forallb scheme_char pre
      then (Py.lower pre, rest)
      else ("", url)
  | _, _ => ("", url)
  end.

Definition netloc_delim (c : ascii) : bool := Py.mem c "/?#".

(** [_splitnetloc(url, 2)] *)
Definition splitnetloc (url : string) : string * string :=
  Py.break netloc_delim (Py.drop 2 url).

(** The bracket test of [urlsplit]. *)
Definition brackets_ok (netloc : string) : bool :=
  negb (xorb (Py.mem "[" netloc) (Py.mem "]" netloc)).

(** The first two steps of [urlsplit]: leading control characters and
    spaces are stripped, then tabs and line breaks are removed. *)
Definition clean (url : string) : string :=
  Py.filter (fun c => negb (unsafe_byte c)) (Py.lstrip_by c0_control_or_space url).

Definition netloc_step (url : string) : string * string :=
  if Py.startswith "//" url then splitnetloc url else ("", url).

Definition fragment_step (url : string) : string * string :=
  if Py.mem "#" url then Py.split1 "#" url else (url, "").

Definition query_step (url : string) : string * string :=
  if Py.mem "?" url then Py.split1 "?" url else (url, "").

(** [urlsplit(url)] as the tuple (scheme, netloc, path, query, fragment). *)
Definition urlsplit (url : string)
  : option (string * string * string * string * string) :=
  let url := clean url in
  let '(scheme, url) := split_scheme url in
  let '(netloc, url) := netloc_step url in
  if negb (brackets_ok netloc) then None else
  let '(url, fragment) := fragment_step url in
  let '(url, query) := query_step url in
  Some (scheme, netloc, url, query, fragment).

(** The index of the last ["/"] of [s] ([s.rfind("/")]), when there is
    one. *)
Fixpoint rfind_slash (s : string) : option nat :=
  match s with
  | EmptyString => None
  | String c s' =>
      match rfind_slash s' with
      | Some i => Some (S i)
      | None => if Ascii.eqb c "/" then Some 0 else None
      end
  end.

(** [_splitparams] *)
Definition splitparams (url : string) : string * string :=
  match rfind_slash url with
  | Some r =>
      let '(a, b) := Py.break (Ascii.eqb ";") (Py.drop r url) in
      match b with
      | EmptyString => (url, "")
      | String _ b' => (Py.take r url +:+ a, b')
      end
  | None =>
      let '(a, b) := Py.break (Ascii.eqb ";") url in (a, Py.drop 1 b)
  end.

(** [urlparse(url)] *)
Definition urlparse (url : string) : option ParseResult :=
  match urlsplit url with
  | None => None
  | Some (scheme, netloc, url, query, fragment) =>
      let '(url, params) :=
        if in_list scheme uses_params && Py.mem ";" url
        then splitparams url else (url, "") in
      Some (mkParseResult scheme netloc url params query fragment)
  end.

(** [urlunsplit((scheme, netloc, url, query, fragment))] *)
Definition urlunsplit (scheme netloc url query fragment : string) : string :=
  let url :=
    if Py.truthy netloc
       || (Py.truthy scheme && in_list scheme uses_netloc
           && negb (String.eqb (Py.take 2 url) "//"))
    then
      let url :=
        if Py.truthy url && negb (String.eqb (Py.take 1 url) "/")
        then "/" +:+ url else url in
      "//" +:+ netloc +:+ url
    else url in
  let url := if Py.truthy scheme then scheme +:+ ":" +:+ url else url in
  let url := if Py.truthy query then url +:+ "?" +:+ query else url in
  let url := if Py.truthy fragment then url +:+ "#" +:+ fragment else url in
  url.

(** [urlunparse] *)
Definition urlunparse (r : ParseResult) : string :=
  let url :=
    if Py.truthy (params r) then path r +:+ ";" +:+ params r else path r in
  urlunsplit (scheme r) (netloc r) url (query r) (fragment r).

(** [urldefrag(url)] as the pair (url without fragment, fragment). *)
Definition urldefrag (url : string) : option (string * string) :=
  if Py.mem "#" url then
    match urlparse url with
    | None => None
    | Some r =>
        Some (urlunparse (mkParseResult (scheme r) (netloc r) (path r)
                            (params r) (query r) ""),
              fragment r)
    end
  else Some (url, "").

End Urllib.

(** *** crawl.py: the pure functions *)

Definition USER_AGENT : string :=
  "Mozilla/5.0 (compatible; GuidelinesAgent/1.0; +https://github.com/)".

Definition DEFAULT_ALLOWED_HOSTS : gset string :=
  {[ "support.google.com"; "www.youtube.com"; "youtube.com" ]}.

(** [s.split(c)] for a one-character [c]. *)
Fixpoint split_char (c : ascii) (s : string) : list string :=
  match s with
  | EmptyString => [ "" ]
  | String x s' =>
      if Ascii.eqb x c then "" :: split_char c s'
      else
        match split_char c s' with
        | [] => [ String x "" ]
        | l :: ls => String x l :: ls
        end
  end.

(** The allow-list that the command line builds from [--hosts]:
    [{h.strip().lower() for h in args.hosts.split(",") if h.strip()}]. *)
Definition hosts_of_argument (hosts : string) : gset string :=
  list_to_set
    (map (fun h => Py.lower (Py.strip h))
       (List.filter (fun h => Py.truthy (Py.strip h)) (split_char "," hosts))).

(** [normalize_url] *)
Definition normalize_url (u : string) : option string :=
  match Urllib.urldefrag u with
  | None => None
  | Some (u, _frag) => Some (Py.strip u)
  end.

(** [same_host] *)
Definition same_host (url : string) (allowed_hosts : gset string) : option bool :=
  match Urllib.urlparse url with
  | None => None
  | Some p =>
      let host := Py.lower (Urllib.netloc p) in
      Some (bool_decide (host ∈ allowed_hosts))
  end.

(** [is_probably_policy_page] *)
Definition is_probably_policy_page (url : string) : option bool :=
  match Urllib.urlparse url with
  | None => None
  | Some p =>
      let host := Py.lower (Urllib.netloc p) in
      let path := Py.lower (Urllib.path p) in
      if String.eqb host "support.google.com" then
        Some (Py.startswith "/youtube/" path)
      else if String.eqb host "www.youtube.com" || String.eqb host "youtube.com" then
        Some (Py.contains "/creators/" path || Py.contains "/howyoutubeworks/" path)
      else Some false
  end.

(** *** BeautifulSoup

    The tree an HTML parse yields and the navigation the crawler uses. The
    parser itself and the selector engine are parameters below. *)

Module Bs4.

#[warnings="-register-all"]
Inductive node :=
| Text (s : string)
    (** a [NavigableString] or [CData]: the strings [get_text] returns *)
| Special (s : string)
    (** a comment, doctype or the like, which [get_text] leaves out *)
| Tag (name : string) (attrs : gmap string string) (children : list node).

(** [n.descendants], in document order. *)
Fixpoint descendants (n : node) : list node :=
  match n with
  | Tag _ _ cs => flat_map (fun c => c :: descendants c) cs
  | _ => []
  end.

Definition is_tag (name : string) (n : node) : bool :=
  match n with
  | Tag nm _ _ => String.eqb nm name
  | _ => false
  end.

Definition attr (key : string) (n : node) : option string :=
  match n with
  | Tag _ attrs _ => attrs !! key
  | _ => None
  end.

(** [n.find(name)], which is also [n.<name>]. *)
Definition find (name : string) (n : node) : option node :=
  head (List.filter (is_tag name) (descendants n)).

(** [n.find_all(name, **{key: True})] *)
Definition find_all_with (name key : string) (n : node) : list node :=
  List.filter (fun d => is_tag name d && bool_decide (is_Some (attr key d)))
    (descendants n).

Definition strings (n : node) : list string :=
  flat_map (fun d => match d with Text s => [s] | _ => [] end)
    (descendants n).

(** [n.get_text(sep, strip=True)]: every string is stripped, the empty
    ones are dropped, the rest is joined. *)
Definition get_text_strip (sep : string) (n : node) : string :=
  Py.join sep (List.filter Py.truthy (map Py.strip (strings n))).

End Bs4.

(** [str.splitlines()] on code points below 256. *)
Definition is_linebreak (c : ascii) : bool :=
  Py.between 10 13 c || Py.between 28 30 c || Py.between 133 133 c.

Fixpoint splitlines (s : string) : list string :=
  match s with
  | EmptyString => []
  | String c s' =>
      if is_linebreak c then
        match s' with
        | String c' s'' =>
            if Ascii.eqb c (ascii_of_N 13) && Ascii.eqb c' (ascii_of_N 10)
            then "" :: splitlines s''
            else "" :: splitlines s'
        | EmptyString => [ "" ]
        end
      else
        match splitlines s' with
        | [] => [ String c "" ]
        | l :: ls => String c l :: ls
        end
  end.

(** What [session.get] gives: an exception, or a response with its status
    code, its [Content-Type] header (when present) and its body. *)
Inductive fetch_result :=
| Failed
| Response (status_code : Z) (content_type : option string) (text : string).

(** How a run of a loop ends. *)
Inductive outcome (A : Type) :=
| Finished (a : A)
| Raised
| OutOfFuel.
Arguments Finished {A} a.
Arguments Raised {A}.
Arguments OutOfFuel {A}.

(** The state of the loop of [crawl]: its three variables, the world the
    requests act on, and (for the statements only) the URLs the loop has
    requested so far, in order. *)
Record State (W : Type) := mkState {
  seen : gset string;
  queue : list string;
  pages : list Page;
  world : W;
  fetched : list string
}.
Arguments mkState {W} seen queue pages world fetched.
Arguments seen {W} s.
Arguments queue {W} s.
Arguments pages {W} s.
Arguments world {W} s.
Arguments fetched {W} s.

(** The first element of [l] whose key is greatest ([max(l, key=key)]). *)
Fixpoint max_by {A : Type} (key : A -> nat) (best : A) (l : list A) : A :=
  match l with
  | [] => best
  | x :: l' => max_by key (if Nat.ltb (key best) (key x) then x else best) l'
  end.

Definition dquote : string := String (ascii_of_N 34) EmptyString.

Section Crawler.

(** The HTML parser, [BeautifulSoup(html, "lxml")]. *)
Variable BeautifulSoup : string -> Bs4.node.
(** The selector engine, [soup.select(sel)]. *)
Variable select : Bs4.node -> string -> list Bs4.node.
(** [urljoin(base, url)]; [None] when it raises. *)
Variable urljoin : string -> string -> option string.
(** The network: [session.get(url)] in a world gives the next world and
    the result. *)
Variable W : Type.
Variable session_get : W -> string -> W * fetch_result.
(** [time.strftime("%Y-%m-%dT%H:%M:%SZ", time.gmtime())] *)
Variable utc_now : W -> string.
(** The robots parser: [rp.parse(lines)] and [rp.can_fetch(agent, url)]. *)
Variable RobotFileParser : Type.
Variable rp_parse : list string -> RobotFileParser.
Variable rp_can_fetch : RobotFileParser -> string -> string -> bool.

(** [get_robots_parser] *)
Definition get_robots_parser (w : W) (base_url : string)
  : option (W * RobotFileParser) :=
  match Urllib.urlparse base_url with
  | None => None
  | Some p =>
      let robots_url :=
        Urllib.scheme p +:+ "://" +:+ Urllib.netloc p +:+ "/robots.txt" in
      match session_get w robots_url with
      | (w', Response _ _ text) => Some (w', rp_parse (splitlines text))
      | (w', Failed) => Some (w', rp_parse [ "User-agent: *"; "Disallow: /" ])
      end
  end.

(** The title that [extract_main_text] returns. *)
Definition extract_title (soup : Bs4.node) : string :=
  match Bs4.find "title" soup with
  | Some t => Bs4.get_text_strip "" t
  | None => ""
  end.

(** [extract_main_text] *)
Definition extract_main_text (html : string) : string * string :=
  let soup := BeautifulSoup html in
  let title := extract_title soup in
  let candidates :=
    flat_map (select soup)
      [ "article"; "main"; "[role=" +:+ dquote +:+ "main" +:+ dquote +:+ "]";
        ".article-content"; ".cc" ] in
  let text :=
    match candidates with
    | c :: cs =>
        let best :=
          max_by (fun el => String.length (Bs4.get_text_strip " " el)) c cs in
        Bs4.get_text_strip Py.nl best
    | [] => Bs4.get_text_strip Py.nl soup
    end in
  let text := Py.strip (Py.squeeze_newlines 0 text) in
  (title, text).

(** The loop of [extract_links] over the anchors found. *)
Fixpoint links_of (base_url : string) (anchors : list Bs4.node)
  : option (list string) :=
  match anchors with
  | [] => Some []
  | a :: rest =>
      let href := Py.strip (default "" (Bs4.attr "href" a)) in
      if Py.startswith "javascript:" href || Py.startswith "#" href
      then links_of base_url rest
      else
        match urljoin base_url href with
        | None => None
        | Some absu =>
            match normalize_url absu with
            | None => None
            | Some absu =>
                match links_of base_url rest with
                | None => None
                | Some links => Some (absu :: links)
                end
            end
        end
  end.

(** [extract_links] *)
Definition extract_links (base_url html : string) : option (list string) :=
  let soup := BeautifulSoup html in
  links_of base_url (Bs4.find_all_with "a" "href" soup).

Definition set_queue (st : State W) (q : list string) : State W :=
  mkState (seen st) q (pages st) (world st) (fetched st).

(** The enqueue loop at the end of the body: [seen] does not change in
    it. *)
Definition enqueue (seen : gset string) (q links : list string) : list string :=
  fold_left (fun q link => if bool_decide (link ∈ seen) then q else q ++ [link])
    links q.

(** One turn of the [while] loop of [crawl]; [None] when an exception
    leaves the loop ([queue.pop(0)] raises on an empty queue, which the
    loop condition excludes). *)
Definition loop_body (rp : RobotFileParser) (allowed_hosts : gset string)
    (st : State W) : option (State W) :=
  match queue st with
  | [] => None
  | url :: q =>
      if bool_decide (url ∈ seen st) then Some (set_queue st q) else
      let seen' := {[url]} ∪ seen st in
      let skip := mkState seen' q (pages st) (world st) (fetched st) in
      match same_host url allowed_hosts with
      | None => None
      | Some false => Some skip
      | Some true =>
      match is_probably_policy_page url with
      | None => None
      | Some false => Some skip
      | Some true =>
      if negb (rp_can_fetch rp USER_AGENT url) then Some skip else
      let '(w', resp) := session_get (world st) url in
      let requested := fetched st ++ [url] in
      let skip' := mkState seen' q (pages st) w' requested in
      match resp with
      | Failed => Some skip'
      | Response status_code content_type html =>
          if negb (status_code =? 200)%Z
             || negb (Py.contains "text/html" (default "" content_type))
          then Some skip'
          else
            let '(title, text) := extract_main_text html in
            let pages' :=
              pages st ++ [ mkPage (Some url) (Some title) (Some text) ] in
            match extract_links url html with
            | None => None
            | Some links =>
                Some (mkState seen' (enqueue seen' q links) pages' w' requested)
            end
      end
      end
      end
  end.

(** [queue and len(pages) < max_pages] *)
Definition loop_cond (max_pages : Z) (st : State W) : bool :=
  match queue st with
  | [] => false
  | _ :: _ => (Z.of_nat (length (pages st)) <? max_pages)%Z
  end.

Fixpoint while_loop (rp : RobotFileParser) (max_pages : Z)
    (allowed_hosts : gset string) (fuel : nat) (st : State W)
  : outcome (State W) :=
  if loop_cond max_pages st then
    match fuel with
    | O => OutOfFuel
    | S fuel' =>
        match loop_body rp allowed_hosts st with
        | Some st' => while_loop rp max_pages allowed_hosts fuel' st'
        | None => Raised
        end
    end
  else Finished st.

(** [crawl] up to the end of its loop. The output path and the delay
    between requests play no part in what is collected. *)
Definition crawl_loop (fuel : nat) (w : W) (start_url : string)
    (max_pages : Z) (allowed_hosts : gset string) : outcome (State W) :=
  match get_robots_parser w start_url with
  | None => Raised
  | Some (w1, rp) =>
      match normalize_url start_url with
      | None => Raised
      | Some u0 =>
          while_loop rp max_pages allowed_hosts fuel (mkState ∅ [ u0 ] [] w1 [])
      end
  end.

(** [crawl]: the snapshot it writes. *)
Definition crawl (fuel : nat) (w : W) (start_url : string)
    (max_pages : Z) (allowed_hosts : gset string) : outcome Snapshot :=
  match crawl_loop fuel w start_url max_pages allowed_hosts with
  | Finished st =>
      Finished (mkSnapshot (Some start_url) (Some (utc_now (world st))) (pages st))
  | Raised => Raised
  | OutOfFuel => OutOfFuel
  end.

End Crawler.

(** *** Definitions used in the statements *)

(** The deduplication loop of [build_md] as a recursive function of the
    set [seen] it starts from. *)
Fixpoint keep (seen : gset string) (pages : list Page) : list Page :=
  match pages with
  | [] => []
  | p :: ps =>
      let u := default "" (page_url p) in
      if Py.truthy u && bool_decide (u ∉ seen)
      then p :: keep ({[u]} ∪ seen) ps
      else keep seen ps
  end.

(** The set [seen] after the loop has read [ps]. *)
Definition seen_after (seen : gset string) (ps : list Page) : gset string :=
  seen ∪ list_to_set (map (fun p => default "" (page_url p)) (keep seen ps)).

Definition url_is (u : string) (p : Page) : bool :=
  String.eqb (default "" (page_url p)) u.

(** The sections of the document for the URL [u]: one per page of [uniq]
    with that URL. *)
Definition sections_for (u : string) (data : Snapshot) : list Page :=
  List.filter (url_is u) (dedup (snap_pages data)).

Definition with_pages (data : Snapshot) (ps : list Page) : Snapshot :=
  mkSnapshot (snap_start_url data) (snap_fetched_at_utc data) ps.

(** A title made of characters that the anchor rule deletes. *)
Definition deleted_char (c : ascii) : bool :=
  negb (Py.is_word c || Py.isspace c || Ascii.eqb c "-").

Definition test_snapshot : Snapshot :=
  mkSnapshot (Some "https://support.google.com/youtube/answer/1")
    (Some "2024-01-01T00:00:00Z")
    [ mkPage (Some "https://support.google.com/youtube/answer/1")
        (Some "Test Page") (Some "Body text.") ].


(** The invariant of the loop of [crawl]: no URL is requested twice, a
    requested URL has been marked as seen and its host is allowed, the
    pages have distinct URLs that were requested, and the ceiling holds. *)
Definition crawl_inv {W : Type} (max_pages : Z) (allowed : gset string) (st : State W)
  : Prop :=
  NoDup (fetched st)
  /\ (forall u, u ∈ fetched st -> (u ∈ seen st) /\ same_host u allowed = Some true)
  /\ NoDup (map page_url (pages st))
  /\ (forall p, p ∈ pages st -> exists u, page_url p = Some u /\ u ∈ fetched st)
  /\ (Z.of_nat (length (pages st)) <= Z.max 0 max_pages)%Z.

(** A small web for the examples: two pages of the help centre that link
    to each other and to a page of another host. The body of a response
    is the name of the page, which the example parser turns into a
    tree. *)
Definition example_tree (title : string) (hrefs : list string) : Bs4.node :=
  Bs4.Tag "[document]" ∅
    [ Bs4.Tag "html" ∅
        [ Bs4.Tag "head" ∅ [ Bs4.Tag "title" ∅ [ Bs4.Text title ] ];
          Bs4.Tag "body" ∅
            (map (fun h => Bs4.Tag "a" {[ "href" := h ]} [ Bs4.Text "link" ])
               hrefs) ] ].

Definition example_parser (html : string) : Bs4.node :=
  if String.eqb html "A" then
    example_tree "  Page A "
      [ "https://support.google.com/youtube/b#top";
        "https://evil.example/youtube/x";
        "https://support.google.com/youtube/a";
        "https://support.google.com/youtube/b" ]
  else
    example_tree "Page B"
      [ "https://support.google.com/youtube/a"; "#local"; "javascript:void(0)" ].

Definition example_select (soup : Bs4.node) (sel : string) : list Bs4.node := [].

Definition example_urljoin (base href : string) : option string := Some href.

(** The world of the example counts the requests made. *)
Definition example_get (w : nat) (url : string) : nat * fetch_result :=
  (S w,
   if String.eqb url "https://support.google.com/youtube/a" then
     Response 200 (Some "text/html; charset=utf-8") "A"
   else if String.eqb url "https://support.google.com/youtube/b" then
     Response 200 (Some "text/html") "B"
   else Response 404 None "").

Definition example_now (w : nat) : string := "2024-01-01T00:00:00Z".

Definition example_rp_parse (lines : list string) : unit := tt.

Definition example_can_fetch (rp : unit) (agent url : string) : bool := true.

Definition example_crawl_loop :=
  crawl_loop example_parser example_select example_urljoin nat example_get
    unit example_rp_parse example_can_fetch.

Definition example_crawl :=
  crawl example_parser example_select example_urljoin nat example_get
    example_now unit example_rp_parse example_can_fetch.

Definition example_start : string := "https://support.google.com/youtube/a#intro".

(** The state in which the loop of the example crawl ends for the ceiling
    5, and the snapshot written then. *)
Definition example_end_5 : State nat :=
  Eval vm_compute in
    match example_crawl_loop 10 0 example_start 5 DEFAULT_ALLOWED_HOSTS with
    | Finished st => st
    | _ => mkState ∅ [] [] 0 []
    end.

Definition example_snapshot : Snapshot :=
  mkSnapshot (Some example_start) (Some "2024-01-01T00:00:00Z")
    (pages example_end_5).

(** *** More definitions used in the statements *)

(** The characters of an anchor: word characters and hyphens. *)
Definition slug_char (c : ascii) : bool :=
  Py.is_word c || Ascii.eqb c "-".

(** A URL as the crawler keeps it: no ["#"] and no white space around. *)
Definition normalized (u : string) : Prop :=
  Py.mem "#" u = false /\ Py.strip u = u.

(** Three line feeds in a row. *)
Definition triple_newline : string :=
  String (ascii_of_N 10) (String (ascii_of_N 10) (String (ascii_of_N 10) "")).

(** The selectors that [extract_main_text] tries, in its order. *)
Definition content_selectors : list string :=
  [ "article"; "main"; "[role=" +:+ dquote +:+ "main" +:+ dquote +:+ "]";
    ".article-content"; ".cc" ].

(** *** build.py: [run] and [main]

    The file system, the JSON reader and the converter are parameters;
    a state pairs the world with the calls made so far, in order. *)

Inductive exn :=
| RuntimeError (msg : string)
| OtherError.

Inductive result (A : Type) :=
| Ok (a : A)
| Err (e : exn).
Arguments Ok {A} a.
Arguments Err {A} e.

Inductive event :=
| EvMakedirs (path : string)
| EvRead (path : string)
| EvWrite (path content : string)
| EvRun (cmd : list string)
| EvPrint (text : string).

Fixpoint ends_with_slash (s : string) : bool :=
  match s with
  | EmptyString => false
  | String c EmptyString => Ascii.eqb c "/"
  | String _ s' => ends_with_slash s'
  end.

(** [os.path.join(a, b)] of [posixpath]. *)
Definition path_join (a b : string) : string :=
  if Py.startswith "/" b then b
  else if negb (Py.truthy a) || ends_with_slash a then a +:+ b
  else a +:+ "/" +:+ b.

Definition docx_command (outdir : string) : list string :=
  [ "pandoc"; path_join outdir "master.md"; "-o"; path_join outdir "master.docx" ].

Definition pdf_command (outdir : string) : list string :=
  [ "pandoc"; path_join outdir "master.md"; "-o"; path_join outdir "master.pdf";
    "--pdf-engine=xelatex" ].

Section Assembler.

Variable OS : Type.
(** [os.makedirs(outdir, exist_ok=True)]; [None] when it raises. *)
Variable makedirs : OS -> string -> option OS.
(** Opening the input and [json.load]; [None] when either raises. *)
Variable read_json : OS -> string -> option Snapshot.
(** Opening a file for writing and writing the text; [None] on an error. *)
Variable write_file : OS -> string -> string -> option OS.
(** [subprocess.run(cmd, capture_output=True, text=True)]: the return code,
    the output and the error output; [None] when the call itself raises. *)
Variable subprocess_run : OS -> list string -> option (OS * (Z * string * string)).

(** [run] *)
Definition run (st : OS * list event) (cmd : list string)
  : (OS * list event) * result string :=
  let '(os, trace) := st in
  let trace := trace ++ [ EvRun cmd ] in
  match subprocess_run os cmd with
  | None => ((os, trace), Err OtherError)
  | Some (os', (returncode, stdout, stderr)) =>
      if negb (returncode =? 0)%Z then
        ((os', trace),
         Err (RuntimeError
                ("Command failed: " +:+ Py.join " " cmd +:+ Py.nl +:+ stderr)))
      else ((os', trace), Ok stdout)
  end.

(** [main] *)
Definition main (st : OS * list event) (inp outdir : string)
  : (OS * list event) * result unit :=
  let '(os, trace) := st in
  let trace := trace ++ [ EvMakedirs outdir ] in
  match makedirs os outdir with
  | None => ((os, trace), Err OtherError)
  | Some os =>
  let trace := trace ++ [ EvRead inp ] in
  match read_json os inp with
  | None => ((os, trace), Err OtherError)
  | Some data =>
  let md := build_md data in
  let md_path := path_join outdir "master.md" in
  let trace := trace ++ [ EvWrite md_path md ] in
  match write_file os md_path md with
  | None => ((os, trace), Err OtherError)
  | Some os =>
  let docx_path := path_join outdir "master.docx" in
  let pdf_path := path_join outdir "master.pdf" in
  match run (os, trace) [ "pandoc"; md_path; "-o"; docx_path ] with
  | (st, Err e) => (st, Err e)
  | (st, Ok _) =>
  match run st [ "pandoc"; md_path; "-o"; pdf_path; "--pdf-engine=xelatex" ] with
  | (st, Err e) => (st, Err e)
  | ((os, trace), Ok _) =>
      ((os, trace ++
            [ EvPrint ("Wrote: " +:+ md_path +:+ Py.nl +:+ "Wrote: " +:+ docx_path
                       +:+ Py.nl +:+ "Wrote: " +:+ pdf_path) ]),
       Ok tt)
  end
  end
  end
  end
  end.

End Assembler.

(** *** Statements about the loop of [crawl] *)

Section CrawlerStatements.

Variable BeautifulSoup : string -> Bs4.node.
Variable select : Bs4.node -> string -> list Bs4.node.
Variable W : Type.
Variable session_get : W -> string -> W * fetch_result.
Variable RobotFileParser : Type.
Variable rp_can_fetch : RobotFileParser -> string -> string -> bool.

(** The page is what the extractor makes of the body of some response
    with status 200 and an HTML content type to a request for its URL. *)
Definition page_of_response (p : Page) : Prop :=
  exists w url content_type html,
    snd (session_get w url) = Response 200 content_type html
    /\ Py.contains "text/html" (default "" content_type) = true
    /\ p = mkPage (Some url)
             (Some (fst (extract_main_text BeautifulSoup select html)))
             (Some (snd (extract_main_text BeautifulSoup select html))).

(** Requests start with the seed, and pages with the page of the seed. *)
Definition seed_first (u0 : string) (st : State W) : Prop :=
  (fetched st = [] /\ pages st = [] /\ (queue st = [ u0 ] \/ queue st = []))
  \/ exists rest,
       fetched st = u0 :: rest
       /\ ((pages st = [] /\ queue st = [] /\ rest = [])
           \/ exists p ps, pages st = p :: ps /\ page_url p = Some u0).

Definition crawl_inv_more (rp : RobotFileParser) (u0 : string) (st : State W)
  : Prop :=
  (forall u, u ∈ fetched st ->
     is_probably_policy_page u = Some true
     /\ rp_can_fetch rp USER_AGENT u = true
     /\ normalized u)
  /\ (forall u, u ∈ queue st -> normalized u)
  /\ map page_url (pages st) `sublist_of` map Some (fetched st)
  /\ (forall p, p ∈ pages st -> page_of_response p)
  /\ seed_first u0 st.

End CrawlerStatements.

(** A robots policy for the examples: the parser keeps the lines; nothing
    may be fetched under a line [Disallow: /], and never the page [b]. *)
Definition example_strict_can_fetch (rp : list string) (agent url : string) : bool :=
  forallb (fun line => negb (String.eqb line "Disallow: /")) rp
  && negb (Py.contains "/youtube/b" url).

Definition example_strict_loop :=
  crawl_loop example_parser example_select example_urljoin nat example_get
    (list string) (fun lines => lines) example_strict_can_fetch.

Definition example_strict_end : State nat :=
  Eval vm_compute in
    match example_strict_loop 10 0 example_start 5 DEFAULT_ALLOWED_HOSTS with
    | Finished st => st
    | _ => mkState ∅ [] [] 0 []
    end.




(** An operating system for the examples: the world is the list of files
    written; the converter fails on the PDF. *)
Definition example_makedirs (os : list (string * string)) (d : string)
  : option (list (string * string)) := Some os.

Definition example_read_json (os : list (string * string)) (path : string)
  : option Snapshot := Some test_snapshot.

Definition example_write_file (os : list (string * string)) (path text : string)
  : option (list (string * string)) := Some ((path, text) :: os).

Definition example_subprocess_run (os : list (string * string)) (cmd : list string)
  : option (list (string * string) * (Z * string * string)) :=
  if existsb (String.eqb "--pdf-engine=xelatex") cmd
  then Some (os, (43%Z, "", "xelatex not found"))
  else Some (os, (0%Z, "", "")).

Definition example_main :=
  main (list (string * string)) example_makedirs example_read_json
    example_write_file example_subprocess_run.

(** *** Definitions for the statement on titles *)

(** The title in the words of the design document: the text of the first
    [title] element (its strings one after the other, as [get_text()] gives
    them) with the white space around it trimmed; empty without such an
    element. *)
Definition title_spec (soup : Bs4.node) : string :=
  match Bs4.find "title" soup with
  | Some t => Py.strip (Py.join "" (Bs4.strings t))
  | None => ""
  end.

Definition not_space (c : ascii) : bool := negb (Py.isspace c).

(** A page whose title holds two strings: one of its own and one of an
    element inside it. *)
Definition example_split_title : Bs4.node :=
  Bs4.Tag "[document]" ∅
    [ Bs4.Tag "html" ∅
        [ Bs4.Tag "head" ∅
            [ Bs4.Tag "title" ∅
                [ Bs4.Text "Community ";
                  Bs4.Tag "b" ∅ [ Bs4.Text " Guidelines " ] ] ] ] ].

(** *** Definitions for the statement on hosts *)


(** The URL that [get_robots_parser] requests for a start URL parsed as
    [p]. *)
Definition robots_url (p : Urllib.ParseResult) : string :=
  Urllib.scheme p +:+ "://" +:+ Urllib.netloc p +:+ "/robots.txt".



(** *** Definitions for the statement on normalisation *)









(** [c.isascii()] *)
Definition is_ascii (c : ascii) : bool := (Py.code c <? 128)%N.

(** ** Part II: properties *)

(** *** Strings *)

Lemma take_truthy n s : Py.truthy (Py.take (S n) s) = Py.truthy s.
Proof. by destruct s. Qed.

Lemma lower_char_deleted c : deleted_char c = true -> Py.lower_char c = c.
Proof.
  destruct c as [[] [] [] [] [] [] [] []]; vm_compute; congruence.
Qed.

Lemma isspace_deleted c : deleted_char c = true -> Py.isspace c = false.
Proof.
  unfold deleted_char. destruct (Py.isspace c); [|done].
  rewrite orb_true_r. simpl. congruence.
Qed.

Lemma lstrip_no_space s :
  Py.forallb (fun c => negb (Py.isspace c)) s = true ->
  Py.lstrip_by Py.isspace s = s.
Proof.
  destruct s as [|c s]; simpl; [done|].
  intros [Hc _]%andb_true_iff. by destruct (Py.isspace c).
Qed.

Lemma rstrip_no_space s :
  Py.forallb (fun c => negb (Py.isspace c)) s = true ->
  Py.rstrip_by Py.isspace s = s.
Proof.
  induction s as [|c s IH]; simpl; [done|].
  intros [Hc Hs]%andb_true_iff. rewrite (IH Hs).
  destruct s; [|done]. by destruct (Py.isspace c).
Qed.

Lemma forallb_impl (p q : ascii -> bool) s :
  (forall c, p c = true -> q c = true) ->
  Py.forallb p s = true -> Py.forallb q s = true.
Proof.
  intros Hpq. induction s as [|c s IH]; simpl; [done|].
  intros [Hc Hs]%andb_true_iff. by rewrite (Hpq _ Hc), (IH Hs).
Qed.

Lemma strip_deleted s :
  Py.forallb deleted_char s = true -> Py.strip s = s.
Proof.
  intros H. unfold Py.strip.
  assert (Hs : Py.forallb (fun c => negb (Py.isspace c)) s = true).
  { apply (forallb_impl deleted_char); [|done].
    intros c Hc. by rewrite (isspace_deleted c Hc). }
  by rewrite (lstrip_no_space s Hs), (rstrip_no_space s Hs).
Qed.

Lemma lower_deleted s :
  Py.forallb deleted_char s = true -> Py.lower s = s.
Proof.
  induction s as [|c s IH]; simpl; [done|].
  intros [Hc Hs]%andb_true_iff. by rewrite (lower_char_deleted c Hc), (IH Hs).
Qed.

Lemma filter_deleted s :
  Py.forallb deleted_char s = true ->
  Py.filter (fun c => Py.is_word c || Py.isspace c || Ascii.eqb c "-") s = "".
Proof.
  induction s as [|c s IH]; simpl; [done|].
  intros [Hc Hs]%andb_true_iff. unfold deleted_char in Hc.
  apply negb_true_iff in Hc. rewrite Hc. by apply IH.
Qed.

(** *** The assembler *)

(** C4 (as amended). [slugify] is the anchor rule of the design document
    applied to the title with its surrounding white space removed first;
    it maps "Community Guidelines!!" to "community-guidelines", and a
    title made only of characters that are neither word characters, white
    space nor hyphens to "section". *)
Theorem slugify_is_rule_after_strip (s t : string)
    (Ht : Py.forallb deleted_char t = true) :
  slugify s = slugify_spec (Py.strip s)
  /\ slugify "Community Guidelines!!" = "community-guidelines"
  /\ slugify t = "section".
Proof.
  split; [|split].
  - unfold slugify, slugify_spec. cbv zeta.
    set (r := Py.sub_space_runs _ _ _). rewrite take_truthy. by destruct r.
  - reflexivity.
  - unfold slugify.
    by rewrite (strip_deleted t Ht), (lower_deleted t Ht), (filter_deleted t Ht).
Qed.

Lemma slugify_is_rule_after_strip_witness :
  Py.forallb deleted_char "?!.,;" = true
  /\ slugify "  Ads & You " = slugify_spec (Py.strip "  Ads & You ")
  /\ slugify "Community Guidelines!!" = "community-guidelines"
  /\ slugify "?!.,;" = "section".
Proof.
  split; [reflexivity|].
  apply (slugify_is_rule_after_strip "  Ads & You " "?!.,;"). reflexivity.
Defined.

(** C4 fails as stated: on a title with leading white space the function
    and the rule of the design document differ, and a title of hyphens,
    which are punctuation, is kept. *)
Lemma slugify_rule_counterexample :
  slugify " a" = "a" /\ slugify_spec " a" = "-a"
  /\ slugify " a" <> slugify_spec " a"
  /\ slugify "--" = "--".
Proof. repeat split; try reflexivity. discriminate. Qed.

(** The two rendering loops append to [lines] only. *)
Lemma fold_left_snoc {A B : Type} (f : A -> B) (l : list A) (init : list B) :
  fold_left (fun acc x => acc ++ [f x]) l init = init ++ map f l.
Proof.
  revert init. induction l as [|x l IH]; intros init; simpl.
  - by rewrite app_nil_r.
  - by rewrite IH, <- app_assoc.
Qed.

Lemma fold_left_extend {A B : Type} (f : A -> list B) (l : list A) (init : list B) :
  fold_left (fun acc x => acc ++ f x) l init = init ++ flat_map f l.
Proof.
  revert init. induction l as [|x l IH]; intros init; simpl.
  - by rewrite app_nil_r.
  - by rewrite IH, <- app_assoc.
Qed.

Lemma build_md_lines_eq (data : Snapshot) :
  build_md_lines data =
    head_lines (default "" (snap_fetched_at_utc data))
               (default "" (snap_start_url data))
    ++ map toc_line (dedup (snap_pages data))
    ++ [ ""; "---"; "" ]
    ++ flat_map section_lines (dedup (snap_pages data)).
Proof.
  unfold build_md_lines. cbv zeta.
  rewrite fold_left_extend, fold_left_snoc. simpl app at 3.
  by rewrite <- !app_assoc.
Qed.

Lemma fold_dedup_step (ps : list Page) (seen : gset string) (uniq : list Page) :
  snd (fold_left dedup_step ps (seen, uniq)) = uniq ++ keep seen ps.
Proof.
  revert seen uniq. induction ps as [|p ps IH]; intros seen uniq; simpl.
  - by rewrite app_nil_r.
  - destruct (Py.truthy _ && bool_decide _).
    + by rewrite IH, <- app_assoc.
    + apply IH.
Qed.

Lemma dedup_keep (ps : list Page) : dedup ps = keep ∅ ps.
Proof. unfold dedup. by rewrite fold_dedup_step. Qed.

Lemma elem_of_keep (q : Page) (seen : gset string) (ps : list Page) :
  q ∈ keep seen ps ->
  (q ∈ ps) /\ (default "" (page_url q) ∉ seen)
  /\ Py.truthy (default "" (page_url q)) = true.
Proof.
  revert seen. induction ps as [|p ps IH]; intros seen; simpl.
  - by intros ?%elem_of_nil.
  - destruct (Py.truthy (default "" (page_url p))) eqn:Ht; simpl.
    + case_bool_decide as Hin.
      * intros [->|Hq]%elem_of_cons.
        -- split; [left|done].
        -- destruct (IH _ Hq) as (? & ? & ?).
           split; [by right|]. split; [set_solver|done].
      * intros Hq. destruct (IH _ Hq) as (? & ? & ?). split; [by right|done].
    + intros Hq. destruct (IH _ Hq) as (? & ? & ?). split; [by right|done].
Qed.

Lemma keep_app (seen : gset string) (l1 l2 : list Page) :
  keep seen (l1 ++ l2) = keep seen l1 ++ keep (seen_after seen l1) l2.
Proof.
  revert seen. induction l1 as [|p l1 IH]; intros seen; simpl.
  - unfold seen_after. simpl. f_equal. set_solver.
  - unfold seen_after. simpl.
    destruct (Py.truthy _ && bool_decide _); simpl; rewrite IH; [|done].
    unfold seen_after. do 2 f_equal. f_equal. set_solver.
Qed.

Lemma keep_skip_seen (u : string) (seen : gset string) (ps : list Page) :
  u ∈ seen ->
  keep seen ps = keep seen (List.filter (fun q => negb (url_is u q)) ps).
Proof.
  revert seen. induction ps as [|p ps IH]; intros seen Hu; simpl; [done|].
  unfold url_is at 1. destruct (String.eqb_spec (default "" (page_url p)) u) as [->|Hne]; simpl.
  - rewrite bool_decide_eq_false_2 by (intros Hn; by apply Hn).
    rewrite andb_false_r. by apply IH.
  - destruct (Py.truthy _ && bool_decide _).
    + f_equal. apply IH. set_solver.
    + by apply IH.
Qed.

(** C3 (as amended). When the snapshot has a page [p] with a non-empty
    URL [u] and no earlier page has that URL, the document has exactly one
    section for [u]: the list of pages it is rendered from holds [p] once
    and no other page with URL [u]; its table of contents and its sections
    are rendered from that list, so from [p]; and the later pages with URL
    [u] can be removed from the snapshot without changing the document. *)
Theorem first_occurrence_wins (data : Snapshot) (l1 l2 : list Page)
    (p : Page) (u : string)
    (Hpages : snap_pages data = l1 ++ p :: l2)
    (Hu : page_url p = Some u)
    (Hne : u <> "")
    (Hfirst : forall q, q ∈ l1 -> page_url q <> Some u) :
  exists k2,
    dedup (snap_pages data) = dedup l1 ++ p :: k2
    /\ (forall q, q ∈ dedup l1 ++ k2 -> page_url q <> Some u)
    /\ sections_for u data = [ p ]
    /\ build_md_lines data =
         head_lines (default "" (snap_fetched_at_utc data))
                    (default "" (snap_start_url data))
         ++ map toc_line (dedup l1 ++ p :: k2)
         ++ [ ""; "---"; "" ]
         ++ flat_map section_lines (dedup l1 ++ p :: k2)
    /\ build_md data =
         build_md (with_pages data
                     (l1 ++ p :: List.filter (fun q => negb (url_is u q)) l2)).
Proof.
  assert (Hp : default "" (page_url p) = u) by (by rewrite Hu).
  assert (Ht : Py.truthy u = true) by (by destruct u).
  assert (Hl1 : forall q, q ∈ keep ∅ l1 -> default "" (page_url q) <> u).
  { intros q Hq. destruct (elem_of_keep _ _ _ Hq) as (Hin & _ & Htq).
    intros Heq. specialize (Hfirst q Hin).
    destruct (page_url q) as [v|]; simpl in *; [congruence|].
    subst u. done. }
  assert (Hnew : u ∉ seen_after ∅ l1).
  { unfold seen_after. rewrite elem_of_union, elem_of_list_to_set, list_elem_of_fmap.
    intros [?%elem_of_empty|(q & Hq & Hin)]; [done|].
    by apply (Hl1 q Hin). }
  assert (Hshape : forall l,
    keep ∅ (l1 ++ p :: l) = keep ∅ l1 ++ p :: keep ({[u]} ∪ seen_after ∅ l1) l).
  { intros l. rewrite keep_app. simpl. rewrite Hp, Ht. simpl.
    by rewrite bool_decide_eq_true_2. }
  exists (keep ({[u]} ∪ seen_after ∅ l1) l2).
  assert (Hd : dedup (snap_pages data) =
               dedup l1 ++ p :: keep ({[u]} ∪ seen_after ∅ l1) l2).
  { by rewrite Hpages, !dedup_keep, Hshape. }
  assert (Hothers : forall q,
    q ∈ dedup l1 ++ keep ({[u]} ∪ seen_after ∅ l1) l2 ->
    default "" (page_url q) <> u).
  { intros q [Hq|Hq]%elem_of_app.
    - rewrite dedup_keep in Hq. by apply Hl1.
    - destruct (elem_of_keep _ _ _ Hq) as (_ & Hnot & _). set_solver. }
  split; [done|]. split; [|split; [|split]].
  - intros q Hq Heq. apply (Hothers q Hq). by rewrite Heq.
  - unfold sections_for. rewrite Hd.
    rewrite List.filter_app. simpl. unfold url_is at 2. rewrite Hp, String.eqb_refl.
    assert (Hnone : forall l, (forall q, q ∈ l -> default "" (page_url q) <> u) ->
                    List.filter (url_is u) l = []).
    { induction l as [|q l IH]; intros Hl; simpl; [done|].
      unfold url_is at 1.
      destruct (String.eqb_spec (default "" (page_url q)) u) as [Heq|_].
      - exfalso. apply (Hl q); [left|done].
      - apply IH. intros q' Hq'. apply Hl. by right. }
    rewrite !Hnone; [done| |].
    + intros q Hq. apply Hothers. apply elem_of_app. by right.
    + intros q Hq. apply Hothers. apply elem_of_app. by left.
  - by rewrite build_md_lines_eq, Hd.
  - unfold build_md. rewrite !build_md_lines_eq. simpl.
    rewrite Hpages, !dedup_keep, !Hshape.
    by rewrite <- (keep_skip_seen u) by set_solver.
Qed.

Lemma first_occurrence_wins_witness :
  let first := mkPage (Some "https://a/1") (Some "A") (Some "first text") in
  let other := mkPage (Some "https://a/2") (Some "B") (Some "other") in
  let again := mkPage (Some "https://a/1") (Some "A") (Some "second text") in
  sections_for "https://a/1" (mkSnapshot None None [ other; first; again ])
    = [ first ].
Proof.
  intros first other again.
  destruct (first_occurrence_wins
              (mkSnapshot None None [ other; first; again ])
              [ other ] [ again ] first "https://a/1")
    as (k2 & _ & _ & Hs & _).
  - reflexivity.
  - reflexivity.
  - discriminate.
  - intros q ->%list_elem_of_singleton. discriminate.
  - exact Hs.
Defined.

(** C3 fails as stated: two pages with the same (empty) URL and different
    text give a document with no section for that URL. *)
Lemma same_url_counterexample :
  let a := mkPage (Some "") (Some "T") (Some "one") in
  let b := mkPage (Some "") (Some "T") (Some "two") in
  let data := mkSnapshot None None [ a; b ] in
  page_url a = page_url b /\ page_text a <> page_text b
  /\ sections_for "" data = []
  /\ build_md_lines data = head_lines "" "" ++ [ ""; "---"; "" ].
Proof. repeat split; try reflexivity. discriminate. Qed.

(** C9. The document of the one-page test snapshot, line by line: the
    table of contents holds the entry of the page, and the body holds the
    heading of the page, then its source line, an empty line and its
    text. *)
Theorem build_md_test_snapshot :
  build_md_lines test_snapshot =
    [ "# YouTube Creator Policy Guidelines – Master Snapshot";
      "";
      "Build-Datum (UTC): **2024-01-01T00:00:00Z**";
      "Start-URL: https://support.google.com/youtube/answer/1";
      "";
      "## Inhaltsverzeichnis";
      "";
      "- [Test Page](#test-page)";
      "";
      "---";
      "";
      "## Test Page";
      "_Quelle_: https://support.google.com/youtube/answer/1";
      "";
      "Body text.";
      "";
      "---";
      "" ]
  /\ build_md test_snapshot = Py.join Py.nl (build_md_lines test_snapshot)
  /\ build_md test_snapshot =
"# YouTube Creator Policy Guidelines – Master Snapshot

Build-Datum (UTC): **2024-01-01T00:00:00Z**
Start-URL: https://support.google.com/youtube/answer/1

## Inhaltsverzeichnis

- [Test Page](#test-page)

---

## Test Page
_Quelle_: https://support.google.com/youtube/answer/1

Body text.

---
".
Proof. repeat split; vm_compute; reflexivity. Qed.

Lemma keep_drop_empty (seen : gset string) (pre post : list Page) (p : Page) :
  default "" (page_url p) = "" ->
  keep seen (pre ++ p :: post) = keep seen (pre ++ post).
Proof.
  intros Hp. rewrite !keep_app. simpl. by rewrite Hp.
Qed.

(** C10. A page whose ["url"] is absent or empty leaves no trace in the
    document: it is not among the pages the document is rendered from,
    the document is the one of the snapshot without that page, and when it
    is the only page the document has no entry and no section. *)
Theorem empty_url_page_is_dropped (data : Snapshot) (pre post : list Page)
    (p : Page)
    (Hpages : snap_pages data = pre ++ p :: post)
    (Hp : page_url p = None \/ page_url p = Some "") :
  (p ∉ dedup (snap_pages data))
  /\ dedup (snap_pages data) = dedup (pre ++ post)
  /\ build_md data = build_md (with_pages data (pre ++ post))
  /\ (pre = [] -> post = [] ->
      build_md_lines data =
        head_lines (default "" (snap_fetched_at_utc data))
                   (default "" (snap_start_url data))
        ++ [ ""; "---"; "" ]).
Proof.
  assert (Hu : default "" (page_url p) = "") by (by destruct Hp as [-> | ->]).
  assert (Hd : dedup (snap_pages data) = dedup (pre ++ post)).
  { by rewrite Hpages, !dedup_keep, (keep_drop_empty _ _ _ _ Hu). }
  split; [|split; [done|split]].
  - rewrite dedup_keep. intros Hin.
    destruct (elem_of_keep _ _ _ Hin) as (_ & _ & Ht). by rewrite Hu in Ht.
  - unfold build_md. rewrite !build_md_lines_eq. simpl. by rewrite Hd.
  - intros -> ->. rewrite build_md_lines_eq, Hd. reflexivity.
Qed.

Lemma empty_url_page_is_dropped_witness :
  let p := mkPage None (Some "No address") (Some "text") in
  let data := mkSnapshot (Some "s") (Some "t") [ p ] in
  (p ∉ dedup (snap_pages data))
  /\ dedup (snap_pages data) = dedup []
  /\ build_md data = build_md (with_pages data [])
  /\ (@nil Page = [] -> @nil Page = [] ->
      build_md_lines data = head_lines "t" "s" ++ [ ""; "---"; "" ]).
Proof.
  intros p data.
  apply (empty_url_page_is_dropped data [] [] p); [reflexivity | by left].
Defined.

(** *** Strings that end in a fragment *)

Lemma mem_app c a b : Py.mem c (a +:+ b) = Py.mem c a || Py.mem c b.
Proof.
  induction a as [|x a IH]; simpl; [done|]. by rewrite IH, orb_assoc.
Qed.

Lemma filter_app p a b : Py.filter p (a +:+ b) = Py.filter p a +:+ Py.filter p b.
Proof.
  induction a as [|x a IH]; simpl; [done|]. rewrite IH. by destruct (p x).
Qed.


Lemma append_nil_l a : "" +:+ a = a.
Proof. reflexivity. Qed.

Lemma append_cons x a b : String x a +:+ b = String x (a +:+ b).
Proof. reflexivity. Qed.

Lemma append_nil_r a : a +:+ "" = a.
Proof.
  induction a as [|x a IH]; [done|].
  change (String x (a +:+ "") = String x a). by f_equal.
Qed.


Lemma mem_lstrip c p s : Py.mem c s = false -> Py.mem c (Py.lstrip_by p s) = false.
Proof.
  induction s as [|x s IH]; simpl; [done|].
  intros [Hx Hs]%orb_false_iff. destruct (p x); [by apply IH|].
  simpl. by rewrite Hx, Hs.
Qed.

Lemma mem_filter c p s : Py.mem c s = false -> Py.mem c (Py.filter p s) = false.
Proof.
  induction s as [|x s IH]; simpl; [done|].
  intros [Hx Hs]%orb_false_iff. destruct (p x); simpl; rewrite ?Hx; by apply IH.
Qed.

Lemma mem_drop c n s : Py.mem c s = false -> Py.mem c (Py.drop n s) = false.
Proof.
  revert s. induction n as [|n IH]; intros s; [done|].
  destruct s as [|x s]; simpl; [done|].
  intros [_ Hs]%orb_false_iff. by apply IH.
Qed.

Lemma mem_break c p s :
  Py.mem c s = false ->
  Py.mem c (fst (Py.break p s)) = false /\ Py.mem c (snd (Py.break p s)) = false.
Proof.
  induction s as [|x s IH]; simpl; [done|].
  intros [Hx Hs]%orb_false_iff. destruct (p x); simpl.
  - by rewrite Hx, Hs.
  - destruct (IH Hs) as [H1 H2]. destruct (Py.break p s) as [a b]; simpl in *.
    by rewrite Hx, H1.
Qed.







(** *** urllib.parse on a URL that ends in a fragment *)







(** *** The pure functions of the crawler *)


Lemma lower_char_idem c : Py.lower_char (Py.lower_char c) = Py.lower_char c.
Proof. destruct c as [[] [] [] [] [] [] [] []]; reflexivity. Qed.

Lemma lower_idem s : Py.lower (Py.lower s) = Py.lower s.
Proof.
  induction s as [|c s IH]; simpl; [done|]. by rewrite lower_char_idem, IH.
Qed.

(** The entries of an allow-list built by the command line are in lower
    case, and the default value of [--hosts] gives the default list. *)
Lemma hosts_of_argument_lower (hosts h : string) :
  h ∈ hosts_of_argument hosts -> Py.lower h = h.
Proof.
  unfold hosts_of_argument. rewrite elem_of_list_to_set, list_elem_of_fmap.
  intros (x & -> & _). apply lower_idem.
Qed.

Lemma hosts_of_argument_default :
  hosts_of_argument "support.google.com,www.youtube.com,youtube.com"
  = DEFAULT_ALLOWED_HOSTS.
Proof. vm_compute. reflexivity. Qed.

Lemma same_host_spec (url : string) (A : gset string) (p : Urllib.ParseResult) :
  Urllib.urlparse url = Some p ->
  same_host url A = Some (bool_decide (Py.lower (Urllib.netloc p) ∈ A)).
Proof. intros Hp. unfold same_host. by rewrite Hp. Qed.

(** C6 (as amended). [same_host] compares the lower-cased network
    location of the URL with the entries of the allow-list as they are
    written. Its answer does not change with the letter case of the URL's
    host; it is "yes" exactly when the lower-cased host is an entry; for an
    allow-list of lower-case entries (which the command line builds) that
    is an exact match up to letter case; a host that only ends with an
    entry, such as a subdomain, does not match unless it is an entry
    itself; and an entry with an upper-case letter is never the one that
    matches. *)
Theorem same_host_exact_match (url1 url2 : string) (A : gset string)
    (p1 p2 : Urllib.ParseResult)
    (H1 : Urllib.urlparse url1 = Some p1)
    (H2 : Urllib.urlparse url2 = Some p2)
    (Hcase : Py.lower (Urllib.netloc p1) = Py.lower (Urllib.netloc p2)) :
  same_host url1 A = same_host url2 A
  /\ (same_host url1 A = Some true <-> Py.lower (Urllib.netloc p1) ∈ A)
  /\ ((forall h, h ∈ A -> Py.lower h = h) ->
      (same_host url1 A = Some true <->
       exists h, h ∈ A /\ Py.lower (Urllib.netloc p1) = Py.lower h))
  /\ (forall label h,
        h ∈ A ->
        Py.lower (Urllib.netloc p1) = label +:+ "." +:+ h ->
        label +:+ "." +:+ h ∉ A ->
        same_host url1 A = Some false)
  /\ (forall h, h ∈ A -> Py.lower h <> h -> Py.lower (Urllib.netloc p1) <> h).
Proof.
  rewrite (same_host_spec url1 A p1 H1), (same_host_spec url2 A p2 H2), Hcase.
  split; [done|]. split; [|split; [|split]].
  4:{ intros h _ Hh Heq. apply Hh. rewrite <- Heq. apply lower_idem. }
  - split.
    + intros [= Hb]. by apply bool_decide_eq_true in Hb.
    + intros Hin. by rewrite bool_decide_eq_true_2.
  - intros Hlow. split.
    + intros [= Hb]. apply bool_decide_eq_true in Hb.
      exists (Py.lower (Urllib.netloc p2)). split; [done|]. by rewrite (Hlow _ Hb).
    + intros (h & Hh & Heq). rewrite bool_decide_eq_true_2; [done|].
      by rewrite Heq, (Hlow _ Hh).
  - intros label h _ Heq Hnot. rewrite Heq. by rewrite bool_decide_eq_false_2.
Qed.

Lemma same_host_exact_match_witness :
  same_host "https://Support.Google.COM/youtube/answer/1" DEFAULT_ALLOWED_HOSTS
    = same_host "https://support.google.com/youtube/answer/1" DEFAULT_ALLOWED_HOSTS
  /\ same_host "https://Support.Google.COM/youtube/answer/1" DEFAULT_ALLOWED_HOSTS
     = Some true.
Proof.
  destruct (same_host_exact_match
              "https://Support.Google.COM/youtube/answer/1"
              "https://support.google.com/youtube/answer/1"
              DEFAULT_ALLOWED_HOSTS
              (Urllib.mkParseResult "https" "Support.Google.COM"
                 "/youtube/answer/1" "" "" "")
              (Urllib.mkParseResult "https" "support.google.com"
                 "/youtube/answer/1" "" "" ""))
    as (Hsame & Hyes & _); [reflexivity..|].
  split; [exact Hsame|]. apply Hyes. vm_compute. reflexivity.
Defined.

(** C6 fails as stated: the letter case of an allow-list entry changes
    the answer. *)
Lemma allow_list_case_counterexample :
  same_host "https://support.google.com/youtube/" {[ "support.google.com" ]}
    = Some true
  /\ same_host "https://support.google.com/youtube/" {[ "Support.Google.com" ]}
     = Some false.
Proof. split; vm_compute; reflexivity. Qed.

(** *** The content extractor *)

Lemma find_none (name : string) (n : Bs4.node) :
  (forall d, d ∈ Bs4.descendants n -> Bs4.is_tag name d = false) ->
  Bs4.find name n = None.
Proof.
  unfold Bs4.find. induction (Bs4.descendants n) as [|d l IH]; intros H; [done|].
  simpl. rewrite (H d) by left. apply IH. intros d' Hd'. apply H. by right.
Qed.

Lemma find_some (name : string) (n t : Bs4.node) :
  Bs4.find name n = Some t ->
  t ∈ Bs4.descendants n /\ Bs4.is_tag name t = true.
Proof.
  unfold Bs4.find. induction (Bs4.descendants n) as [|d l IH]; [done|].
  simpl. destruct (Bs4.is_tag name d) eqn:E.
  - intros [= <-]. split; [left|done].
  - intros H. destruct (IH H). split; [by right|done].
Qed.

Lemma get_text_strip_single (sep s : string) (t : Bs4.node) :
  Bs4.strings t = [ s ] -> Bs4.get_text_strip sep t = Py.strip s.
Proof.
  intros Hs. unfold Bs4.get_text_strip. rewrite Hs. simpl.
  by destruct (Py.strip s).
Qed.

Lemma rstrip_idem p s : Py.rstrip_by p (Py.rstrip_by p s) = Py.rstrip_by p s.
Proof.
  induction s as [|c s IH]; simpl; [done|].
  destruct (Py.rstrip_by p s) as [|x r] eqn:E.
  - destruct (p c) eqn:Ec; simpl; [done|]. by rewrite Ec.
  - change (Py.rstrip_by p (String c (String x r)) = String c (String x r)).
    simpl Py.rstrip_by at 1. simpl in IH. by rewrite IH.
Qed.

Lemma lstrip_head p s c t : Py.lstrip_by p s = String c t -> p c = false.
Proof.
  induction s as [|x s IH]; simpl; [done|].
  destruct (p x) eqn:E; [done|]. by intros [= <- _].
Qed.

Lemma rstrip_head p c s :
  p c = false -> exists t, Py.rstrip_by p (String c s) = String c t.
Proof.
  intros Hc. simpl. destruct (Py.rstrip_by p s); [|by eexists].
  rewrite Hc. by eexists.
Qed.

Lemma join_empty_sep (l : list string) :
  Py.join "" l = fold_right String.append "" l.
Proof.
  induction l as [|x l IH]; [done|].
  destruct l as [|y l].
  - simpl. by rewrite append_nil_r.
  - change (Py.join "" (x :: y :: l)) with (x +:+ Py.join "" (y :: l)).
    by rewrite IH.
Qed.

Lemma filter_lstrip_space s :
  Py.filter not_space (Py.lstrip_by Py.isspace s) = Py.filter not_space s.
Proof.
  induction s as [|c s IH]; simpl; [done|]. unfold not_space at 2.
  destruct (Py.isspace c) eqn:E; simpl; [done|].
  unfold not_space at 1. by rewrite E.
Qed.

Lemma filter_rstrip_space s :
  Py.filter not_space (Py.rstrip_by Py.isspace s) = Py.filter not_space s.
Proof.
  induction s as [|c s IH]; simpl; [done|].
  destruct (Py.rstrip_by Py.isspace s) as [|x r] eqn:E.
  - rewrite <- IH. simpl. unfold not_space.
    destruct (Py.isspace c) eqn:Ec; simpl; [done|]. by rewrite Ec.
  - simpl in *. by rewrite IH.
Qed.

Lemma filter_strip_space s :
  Py.filter not_space (Py.strip s) = Py.filter not_space s.
Proof. unfold Py.strip. by rewrite filter_rstrip_space, filter_lstrip_space. Qed.

(** Trimming each string and dropping the empty ones keeps every character
    that is not white space. *)
Lemma filter_stripped_pieces (l : list string) :
  Py.filter not_space (Py.join "" (List.filter Py.truthy (map Py.strip l)))
  = Py.filter not_space (Py.join "" l).
Proof.
  rewrite !join_empty_sep. induction l as [|x l IH]; [done|].
  simpl. rewrite (filter_app _ x), <- IH, <- (filter_strip_space x).
  destruct (Py.strip x) as [|c t]; [done|].
  simpl List.filter. simpl fold_right. by rewrite filter_app.
Qed.

Lemma lstrip_fixed_head p c t :
  Py.lstrip_by p (String c t) = String c t -> p c = false.
Proof. apply lstrip_head. Qed.

Lemma lstrip_app_fixed p a b :
  a <> "" -> Py.lstrip_by p a = a -> Py.lstrip_by p (a +:+ b) = a +:+ b.
Proof.
  destruct a as [|c t]; [done|]. intros _ H.
  rewrite append_cons. simpl. by rewrite (lstrip_fixed_head p c t H).
Qed.

Lemma rstrip_app_fixed p a b :
  b <> "" -> Py.rstrip_by p b = b -> Py.rstrip_by p (a +:+ b) = a +:+ b.
Proof.
  intros Hb Hfix. induction a as [|c a IH]; [done|].
  rewrite append_cons. simpl. rewrite IH.
  destruct (a +:+ b) eqn:E; [|done].
  destruct a; [by rewrite append_nil_l in E|by rewrite append_cons in E].
Qed.

Lemma lstrip_strip s : Py.lstrip_by Py.isspace (Py.strip s) = Py.strip s.
Proof.
  unfold Py.strip. destruct (Py.lstrip_by Py.isspace s) as [|c t] eqn:E; [done|].
  destruct (rstrip_head Py.isspace c t (lstrip_head _ _ _ _ E)) as [t' ->].
  simpl. by rewrite (lstrip_head _ _ _ _ E).
Qed.

Lemma rstrip_strip s : Py.rstrip_by Py.isspace (Py.strip s) = Py.strip s.
Proof. unfold Py.strip. apply rstrip_idem. Qed.

(** Strings without white space at their ends, none of them empty, give a
    string without white space at its ends when they are put together. *)
Lemma join_trimmed (l : list string) :
  Forall (fun s => s <> "" /\ Py.lstrip_by Py.isspace s = s
                   /\ Py.rstrip_by Py.isspace s = s) l ->
  Py.lstrip_by Py.isspace (Py.join "" l) = Py.join "" l
  /\ Py.rstrip_by Py.isspace (Py.join "" l) = Py.join "" l
  /\ (l <> [] -> Py.join "" l <> "").
Proof.
  rewrite join_empty_sep.
  induction 1 as [|x l (Hne & Hl & Hr) _ (IHl & IHr & IHne)]; [done|].
  simpl. split; [by apply lstrip_app_fixed|]. split.
  - destruct l as [|y l]; [simpl; by rewrite append_nil_r|].
    apply rstrip_app_fixed; [by apply IHne|done].
  - intros _. destruct x; [done|]. by rewrite append_cons.
Qed.

Lemma strip_fixed s :
  Py.lstrip_by Py.isspace s = s -> Py.rstrip_by Py.isspace s = s -> Py.strip s = s.
Proof. intros Hl Hr. unfold Py.strip. by rewrite Hl, Hr. Qed.

Lemma get_text_strip_trimmed (t : Bs4.node) :
  Py.strip (Bs4.get_text_strip "" t) = Bs4.get_text_strip "" t.
Proof.
  unfold Bs4.get_text_strip.
  assert (H : Forall (fun s => s <> "" /\ Py.lstrip_by Py.isspace s = s
                               /\ Py.rstrip_by Py.isspace s = s)
                (List.filter Py.truthy (map Py.strip (Bs4.strings t)))).
  { induction (Bs4.strings t) as [|x l IH]; simpl; [constructor|].
    destruct (Py.strip x) as [|c r] eqn:E; simpl; [done|].
    constructor; [|done]. rewrite <- E.
    split; [by rewrite E|]. split; [apply lstrip_strip|apply rstrip_strip]. }
  destruct (join_trimmed _ H) as (Hl & Hr & _).
  by apply strip_fixed.
Qed.

(** C8 (as amended). Without a [title] element the title is empty. With
    one, the title is made of the strings of the first such element, each
    trimmed by itself, the empty ones dropped: for an element that holds
    one string this is the text of the element with the white space
    around it trimmed; in general the title has no white space at its ends
    and has, in order, the characters of the trimmed text that are not
    white space, while white space between two strings is lost. *)
Theorem extract_title_spec (BeautifulSoup : string -> Bs4.node)
    (select : Bs4.node -> string -> list Bs4.node) (html : string) :
  let soup := BeautifulSoup html in
  let title := fst (extract_main_text BeautifulSoup select html) in
  ((forall d, d ∈ Bs4.descendants soup -> Bs4.is_tag "title" d = false) ->
   title = "" /\ title_spec soup = "")
  /\ (forall t s, Bs4.find "title" soup = Some t ->
                  Bs4.strings t = [ s ] ->
                  title = Py.strip s /\ title = title_spec soup)
  /\ (forall t, Bs4.find "title" soup = Some t ->
                title = Py.join "" (List.filter Py.truthy
                                      (map Py.strip (Bs4.strings t))))
  /\ Py.strip title = title
  /\ Py.filter not_space title = Py.filter not_space (title_spec soup).
Proof.
  simpl. unfold extract_title, title_spec.
  split; [|split; [|split; [|split]]].
  - intros Hno. by rewrite (find_none _ _ Hno).
  - intros t s -> Hs. rewrite (get_text_strip_single _ _ _ Hs), Hs. simpl. done.
  - by intros t ->.
  - destruct (Bs4.find "title" (BeautifulSoup html)) as [t|]; [|done].
    apply get_text_strip_trimmed.
  - destruct (Bs4.find "title" (BeautifulSoup html)) as [t|]; [|done].
    unfold Bs4.get_text_strip.
    by rewrite filter_stripped_pieces, filter_strip_space.
Qed.

Lemma extract_title_spec_witness :
  fst (extract_main_text example_parser example_select "A") = "Page A"
  /\ fst (extract_main_text example_parser example_select "A")
     = title_spec (example_parser "A").
Proof.
  destruct (extract_title_spec example_parser example_select "A") as (_ & H & _).
  apply (H (Bs4.Tag "title" ∅ [ Bs4.Text "  Page A " ]) "  Page A ");
    reflexivity.
Defined.

(** C8 fails as stated: a title that holds two strings loses the white
    space between them, which trimming the text of the element keeps. *)
Lemma split_title_counterexample :
  fst (extract_main_text (fun _ => example_split_title) example_select "")
    = "CommunityGuidelines"
  /\ title_spec example_split_title = "Community  Guidelines"
  /\ fst (extract_main_text (fun _ => example_split_title) example_select "")
     <> title_spec example_split_title.
Proof. repeat split; try reflexivity. discriminate. Qed.

(** *** The crawl loop *)

Section CrawlerFacts.

Context (BeautifulSoup : string -> Bs4.node)
        (select : Bs4.node -> string -> list Bs4.node)
        (urljoin : string -> string -> option string)
        (W : Type)
        (session_get : W -> string -> W * fetch_result)
        (utc_now : W -> string)
        (RobotFileParser : Type)
        (rp_parse : list string -> RobotFileParser)
        (rp_can_fetch : RobotFileParser -> string -> string -> bool).

Local Abbreviation body := (loop_body BeautifulSoup select urljoin W session_get
                    RobotFileParser rp_can_fetch).
Local Abbreviation while := (while_loop BeautifulSoup select urljoin W session_get
                     RobotFileParser rp_can_fetch).
Local Abbreviation run := (crawl_loop BeautifulSoup select urljoin W session_get
                   RobotFileParser rp_parse rp_can_fetch).
Local Abbreviation crawl' := (crawl BeautifulSoup select urljoin W session_get utc_now
                      RobotFileParser rp_parse rp_can_fetch).

(** What one turn of the loop does to the state. *)
Lemma loop_body_turn (rp : RobotFileParser) (allowed : gset string)
    (st st' : State W) :
  queue st <> [] ->
  body rp allowed st = Some st' ->
  exists url q,
    queue st = url :: q
    /\ (((url ∈ seen st) /\ st' = set_queue W st q)
        \/ ((url ∉ seen st) /\ seen st' = {[url]} ∪ seen st
            /\ ((queue st' = q /\ pages st' = pages st
                 /\ fetched st' = fetched st)
                \/ (same_host url allowed = Some true
                    /\ fetched st' = fetched st ++ [ url ]
                    /\ ((queue st' = q /\ pages st' = pages st)
                        \/ exists title text,
                             pages st' =
                               pages st ++
                               [ mkPage (Some url) (Some title) (Some text) ]))))).
Proof.
  intros Hq. unfold loop_body.
  destruct (queue st) as [|url q] eqn:Eq; [done|].
  intros H. exists url, q. split; [done|].
  case_bool_decide as Hseen.
  { left. split; [done|]. congruence. }
  right. split; [done|].
  destruct (same_host url allowed) as [[]|] eqn:Eh; [| |done].
  2:{ injection H as <-. split; [done|]. by left. }
  destruct (is_probably_policy_page url) as [[]|]; [| |done].
  2:{ injection H as <-. split; [done|]. by left. }
  destruct (negb (rp_can_fetch rp USER_AGENT url)).
  { injection H as <-. split; [done|]. by left. }
  destruct (session_get (world st) url) as [w' resp].
  destruct resp as [|status_code content_type html].
  { injection H as <-. split; [done|]. right. split; [done|]. split; [done|].
    by left. }
  destruct (negb (status_code =? 200)%Z || negb (Py.contains "text/html" _)).
  { injection H as <-. split; [done|]. right. split; [done|]. split; [done|].
    by left. }
  destruct (extract_main_text BeautifulSoup select html) as [title text].
  destruct (extract_links BeautifulSoup urljoin url html) as [links|]; [|done].
  injection H as <-. split; [done|]. right. split; [done|]. split; [done|].
  right. by exists title, text.
Qed.

Lemma loop_cond_queue (max_pages : Z) (st : State W) :
  loop_cond W max_pages st = true ->
  queue st <> [] /\ (Z.of_nat (length (pages st)) < max_pages)%Z.
Proof.
  unfold loop_cond. destruct (queue st); [done|].
  intros H%Z.ltb_lt. done.
Qed.

(** A property that every turn preserves holds when the loop ends. *)
Lemma while_loop_invariant (P : State W -> Prop) (rp : RobotFileParser)
    (max_pages : Z) (allowed : gset string) :
  (forall st st', P st -> loop_cond W max_pages st = true ->
                  body rp allowed st = Some st' -> P st') ->
  forall fuel st st_end,
    P st -> while rp max_pages allowed fuel st = Finished st_end ->
    P st_end /\ loop_cond W max_pages st_end = false.
Proof.
  intros Hstep fuel. induction fuel as [|fuel IH]; intros st st_end HP; simpl.
  - destruct (loop_cond W max_pages st) eqn:Ec; [done|]. by intros [= <-].
  - destruct (loop_cond W max_pages st) eqn:Ec; [|by intros [= <-]].
    destruct (body rp allowed st) as [st'|] eqn:Eb; [|done].
    apply IH. by apply (Hstep st).
Qed.

Lemma crawl_inv_turn (rp : RobotFileParser) (max_pages : Z)
    (allowed : gset string) (st st' : State W) :
  crawl_inv max_pages allowed st ->
  loop_cond W max_pages st = true ->
  body rp allowed st = Some st' ->
  crawl_inv max_pages allowed st'.
Proof.
  intros (Hnd & Hf & Hpd & Hp & Hlen) [Hq Hlt]%loop_cond_queue Hb.
  destruct (loop_body_turn rp allowed st st' Hq Hb) as (url & q & Eq & Hcase).
  destruct Hcase as [[_ ->]|(Hnew & Hseen & Hcase)]; [done|].
  assert (Hfresh : url ∉ fetched st).
  { intros Hin. by destruct (Hf url Hin). }
  destruct Hcase as [(_ & Hpg & Hfe)|(Hhost & Hfe & Hcase)].
  { unfold crawl_inv. rewrite Hpg, Hfe, Hseen. repeat split; try done.
    - destruct (Hf u H). set_solver.
    - by destruct (Hf u H). }
  assert (Hnd' : NoDup (fetched st ++ [ url ])).
  { apply NoDup_app. repeat split; [done| |apply NoDup_singleton].
    intros x Hx ->%list_elem_of_singleton. done. }
  assert (Hf' : forall u, u ∈ fetched st ++ [ url ] ->
                  u ∈ {[url]} ∪ seen st /\ same_host u allowed = Some true).
  { intros u [Hu| ->%list_elem_of_singleton]%elem_of_app.
    - destruct (Hf u Hu). split; [set_solver|done].
    - split; [set_solver|done]. }
  destruct Hcase as [(_ & Hpg)|(title & text & Hpg)].
  { unfold crawl_inv. rewrite Hpg, Hfe, Hseen. repeat split; try done.
    - by apply Hf'.
    - by apply Hf'.
    - intros p Hin. destruct (Hp p Hin) as (u & Hu & Hin').
      exists u. split; [done|]. apply elem_of_app. by left. }
  unfold crawl_inv. rewrite Hpg, Hfe, Hseen. repeat split; try done.
  - by apply Hf'.
  - by apply Hf'.
  - rewrite map_app. simpl. apply NoDup_app. repeat split;
      [done| |apply NoDup_singleton].
    intros x Hx ->%list_elem_of_singleton.
    apply list_elem_of_fmap in Hx as (p & Hpu & Hin).
    destruct (Hp p Hin) as (u & Hu & Hin'). rewrite Hu in Hpu.
    injection Hpu as ->. done.
  - intros p [Hin| ->%list_elem_of_singleton]%elem_of_app.
    + destruct (Hp p Hin) as (u & Hu & Hin').
      exists u. split; [done|]. apply elem_of_app. by left.
    + exists url. split; [done|]. apply elem_of_app. right. by left.
  - rewrite length_app. simpl. lia.
Qed.

Lemma crawl_loop_inv (fuel : nat) (w : W) (start_url : string)
    (max_pages : Z) (allowed : gset string) (st : State W) :
  run fuel w start_url max_pages allowed = Finished st ->
  crawl_inv max_pages allowed st /\ loop_cond W max_pages st = false.
Proof.
  unfold crawl_loop.
  destruct (get_robots_parser _ _ _ _ _ _) as [[w1 rp]|]; [|done].
  destruct (normalize_url start_url) as [u0|]; [|done].
  apply (while_loop_invariant (crawl_inv max_pages allowed)).
  - intros s s'. apply crawl_inv_turn.
  - unfold crawl_inv. simpl. repeat split; try apply NoDup_nil_2; try lia.
    + by apply elem_of_nil in H.
    + by apply elem_of_nil in H.
    + intros p Hp. by apply elem_of_nil in Hp.
Qed.

(** More fuel does not change the result of a loop that has ended. *)
Lemma while_loop_more_fuel (rp : RobotFileParser) (max_pages : Z)
    (allowed : gset string) (fuel fuel' : nat) (st : State W)
    (r : outcome (State W)) :
  while rp max_pages allowed fuel st = r -> r <> OutOfFuel ->
  (fuel <= fuel')%nat ->
  while rp max_pages allowed fuel' st = r.
Proof.
  revert fuel' st. induction fuel as [|fuel IH]; intros fuel' st; simpl.
  - destruct (loop_cond W max_pages st) eqn:Ec; [by intros <-|].
    intros <- _ _. destruct fuel'; simpl; by rewrite Ec.
  - destruct (loop_cond W max_pages st) eqn:Ec.
    + intros Hr Hne Hle. destruct fuel' as [|fuel']; [lia|]. simpl. rewrite Ec.
      destruct (body rp allowed st) as [st'|]; [|done].
      apply IH; [done..|lia].
    + intros <- _ _. destruct fuel'; simpl; by rewrite Ec.
Qed.

(** The loop ends: every turn shortens the queue or adds a page, and pages
    are added only below the ceiling. *)
Lemma while_loop_terminates (rp : RobotFileParser) (max_pages : Z)
    (allowed : gset string) (st : State W) :
  exists fuel, while rp max_pages allowed fuel st <> OutOfFuel.
Proof.
  remember (Z.to_nat (max_pages - Z.of_nat (length (pages st)))) as b eqn:Eb.
  assert (Hb : (Z.to_nat (max_pages - Z.of_nat (length (pages st))) <= b)%nat)
    by lia.
  clear Eb. revert st Hb.
  induction b as [b IHb] using lt_wf_ind. intros st Hb.
  remember (length (queue st)) as n eqn:En.
  assert (Hn : (length (queue st) <= n)%nat) by lia.
  clear En. revert st Hb Hn.
  induction n as [n IHn] using lt_wf_ind. intros st Hb Hn.
  destruct (loop_cond W max_pages st) eqn:Ec.
  2:{ exists O. simpl. by rewrite Ec. }
  destruct (body rp allowed st) as [st'|] eqn:Ebody.
  2:{ exists 1%nat. simpl. by rewrite Ec, Ebody. }
  destruct (loop_cond_queue _ _ Ec) as [Hq Hlt].
  destruct (loop_body_turn rp allowed st st' Hq Ebody) as (url & q & Eq & Hcase).
  assert (Hshort : queue st' = q /\ pages st' = pages st ->
                   exists fuel, while rp max_pages allowed fuel st' <> OutOfFuel).
  { intros [Hq' Hp']. apply (IHn (length q)).
    - rewrite Eq in Hn. simpl in Hn. lia.
    - by rewrite Hp'.
    - by rewrite Hq'. }
  assert (Hnext : exists fuel, while rp max_pages allowed fuel st' <> OutOfFuel).
  { destruct Hcase as [[_ ->]|(_ & _ & [(? & ? & _)|(_ & _ & [[? ?]|Hadd])])];
      try (by apply Hshort).
    destruct Hadd as (title & text & Hp').
    apply (IHb (Z.to_nat (max_pages - Z.of_nat (length (pages st'))))).
    - rewrite Hp', length_app. simpl. lia.
    - lia. }
  destruct Hnext as [fuel Hfuel]. exists (S fuel). simpl. by rewrite Ec, Ebody.
Qed.

Lemma crawl_loop_terminates (w : W) (start_url : string) (max_pages : Z)
    (allowed : gset string) :
  exists fuel, run fuel w start_url max_pages allowed <> OutOfFuel.
Proof.
  unfold crawl_loop.
  destruct (get_robots_parser _ _ _ _ _ _) as [[w1 rp]|]; [|by exists O].
  destruct (normalize_url start_url) as [u0|]; [|by exists O].
  apply while_loop_terminates.
Qed.

(** C1. In the snapshot of a crawl the URLs of the pages are pairwise
    distinct, and no URL is requested twice by the loop. *)
Theorem crawl_urls_distinct (fuel : nat) (w : W) (start_url : string)
    (max_pages : Z) (allowed : gset string) (snap : Snapshot)
    (Hrun : crawl BeautifulSoup select urljoin W session_get utc_now
              RobotFileParser rp_parse rp_can_fetch
              fuel w start_url max_pages allowed
            = Finished snap) :
  NoDup (map page_url (snap_pages snap))
  /\ exists st,
       crawl_loop BeautifulSoup select urljoin W session_get
         RobotFileParser rp_parse rp_can_fetch
         fuel w start_url max_pages allowed
       = Finished st
       /\ snap_pages snap = pages st
       /\ NoDup (fetched st).
Proof.
  unfold crawl in Hrun.
  destruct (run fuel w start_url max_pages allowed) as [st| |] eqn:E; [|done..].
  injection Hrun as <-. simpl.
  destruct (crawl_loop_inv _ _ _ _ _ _ E) as [(Hnd & _ & Hpd & _) _].
  split; [done|]. by exists st.
Qed.

(** C2 (as amended). For a ceiling [max_pages] that is not negative, a
    crawl ends, and its snapshot has at most [max_pages] pages; the loop
    stops with URLs left in the queue only when that number is reached. *)
Theorem crawl_page_ceiling (w : W) (start_url : string) (max_pages : Z)
    (allowed : gset string)
    (Hmax : (0 <= max_pages)%Z) :
  (exists fuel,
     crawl BeautifulSoup select urljoin W session_get utc_now
       RobotFileParser rp_parse rp_can_fetch
       fuel w start_url max_pages allowed
     <> OutOfFuel)
  /\ (forall fuel snap,
        crawl BeautifulSoup select urljoin W session_get utc_now
          RobotFileParser rp_parse rp_can_fetch
          fuel w start_url max_pages allowed
        = Finished snap ->
        (Z.of_nat (length (snap_pages snap)) <= max_pages)%Z)
  /\ (forall fuel st,
        crawl_loop BeautifulSoup select urljoin W session_get
          RobotFileParser rp_parse rp_can_fetch
          fuel w start_url max_pages allowed
        = Finished st ->
        (Z.of_nat (length (pages st)) <= max_pages)%Z
        /\ (queue st = [] \/ Z.of_nat (length (pages st)) = max_pages)).
Proof.
  assert (Hloop : forall fuel st,
    run fuel w start_url max_pages allowed = Finished st ->
    (Z.of_nat (length (pages st)) <= max_pages)%Z
    /\ (queue st = [] \/ Z.of_nat (length (pages st)) = max_pages)).
  { intros fuel st E.
    destruct (crawl_loop_inv _ _ _ _ _ _ E) as [(_ & _ & _ & _ & Hlen) Hc].
    split; [lia|]. unfold loop_cond in Hc.
    destruct (queue st); [by left|]. right. apply Z.ltb_ge in Hc. lia. }
  split; [|split; [|done]].
  - destruct (crawl_loop_terminates w start_url max_pages allowed) as [fuel Hf].
    exists fuel. unfold crawl.
    by destruct (run fuel w start_url max_pages allowed).
  - intros fuel snap. unfold crawl.
    destruct (run fuel w start_url max_pages allowed) as [st| |] eqn:E; [|done..].
    intros [= <-]. simpl. by destruct (Hloop fuel st E).
Qed.


End CrawlerFacts.

Lemma crawl_urls_distinct_witness :
  NoDup (map page_url (snap_pages example_snapshot))
  /\ exists st,
       example_crawl_loop 10 0 example_start 5 DEFAULT_ALLOWED_HOSTS = Finished st
       /\ snap_pages example_snapshot = pages st
       /\ NoDup (fetched st).
Proof.
  apply (crawl_urls_distinct example_parser example_select example_urljoin nat
           example_get example_now unit example_rp_parse example_can_fetch
           10 0 example_start 5 DEFAULT_ALLOWED_HOSTS example_snapshot).
  vm_compute. reflexivity.
Defined.

Lemma crawl_page_ceiling_witness :
  (0 <= 1)%Z
  /\ (exists fuel,
        example_crawl fuel 0 example_start 1 DEFAULT_ALLOWED_HOSTS <> OutOfFuel)
  /\ (forall fuel snap,
        example_crawl fuel 0 example_start 1 DEFAULT_ALLOWED_HOSTS = Finished snap ->
        (Z.of_nat (length (snap_pages snap)) <= 1)%Z)
  /\ (forall fuel st,
        example_crawl_loop fuel 0 example_start 1 DEFAULT_ALLOWED_HOSTS = Finished st ->
        (Z.of_nat (length (pages st)) <= 1)%Z
        /\ (queue st = [] \/ Z.of_nat (length (pages st)) = 1%Z)).
Proof.
  split; [lia|].
  apply (crawl_page_ceiling example_parser example_select example_urljoin nat
           example_get example_now unit example_rp_parse example_can_fetch
           0 example_start 1 DEFAULT_ALLOWED_HOSTS).
  lia.
Defined.

(** C2 fails as stated: with the ceiling -1 the crawl ends with an empty
    list of pages, whose length is not at most -1. *)
Lemma negative_ceiling_counterexample :
  exists snap,
    example_crawl 10 0 example_start (-1) DEFAULT_ALLOWED_HOSTS = Finished snap
    /\ snap_pages snap = []
    /\ ~ (Z.of_nat (length (snap_pages snap)) <= -1)%Z.
Proof.
  eexists. split; [vm_compute; reflexivity|]. split; [reflexivity|].
  simpl. lia.
Qed.

Section CrawlerRequests.

Context (BeautifulSoup : string -> Bs4.node)
        (select : Bs4.node -> string -> list Bs4.node)
        (urljoin : string -> string -> option string)
        (W : Type)
        (session_get : W -> string -> W * fetch_result)
        (utc_now : W -> string)
        (RobotFileParser : Type)
        (rp_parse : list string -> RobotFileParser)
        (rp_can_fetch : RobotFileParser -> string -> string -> bool).




End CrawlerRequests.



(** *** More on the anchors *)

Lemma forallb_filter p s : Py.forallb p (Py.filter p s) = true.
Proof.
  induction s as [|c s IH]; simpl; [done|].
  destruct (p c) eqn:E; simpl; [by rewrite E|done].
Qed.

Lemma forallb_filter_other p q s :
  Py.forallb q s = true -> Py.forallb q (Py.filter p s) = true.
Proof.
  induction s as [|c s IH]; simpl; [done|].
  intros [Hc Hs]%andb_true_iff. destruct (p c); simpl; rewrite ?Hc; by apply IH.
Qed.

Lemma forallb_take p n s :
  Py.forallb p s = true -> Py.forallb p (Py.take n s) = true.
Proof.
  revert s. induction n as [|n IH]; intros s; [done|].
  destruct s as [|c s]; simpl; [done|].
  intros [Hc Hs]%andb_true_iff. by rewrite Hc, IH.
Qed.

Lemma length_take n s : (String.length (Py.take n s) <= n)%nat.
Proof.
  revert s. induction n as [|n IH]; intros s; simpl; [lia|].
  destruct s as [|c s]; simpl; [lia|]. specialize (IH s). lia.
Qed.

Lemma take_all n s : (String.length s <= n)%nat -> Py.take n s = s.
Proof.
  revert s. induction n as [|n IH]; intros s; destruct s as [|c s]; simpl;
    try done; try lia.
  intros H. f_equal. apply IH. lia.
Qed.

Lemma filter_all p s : Py.forallb p s = true -> Py.filter p s = s.
Proof.
  induction s as [|c s IH]; simpl; [done|].
  intros [Hc Hs]%andb_true_iff. by rewrite Hc, IH.
Qed.

Lemma forallb_lower_not_upper s :
  Py.forallb (fun c => negb (Py.is_upper c)) (Py.lower s) = true.
Proof.
  induction s as [|c s IH]; simpl; [done|]. rewrite IH, andb_true_r.
  destruct c as [[] [] [] [] [] [] [] []]; reflexivity.
Qed.

Lemma lower_not_upper s :
  Py.forallb (fun c => negb (Py.is_upper c)) s = true -> Py.lower s = s.
Proof.
  induction s as [|c s IH]; simpl; [done|].
  intros [Hc Hs]%andb_true_iff. rewrite (IH Hs). unfold Py.lower_char.
  apply negb_true_iff in Hc. by rewrite Hc.
Qed.

Lemma sub_space_runs_chars (q : ascii -> bool) b s :
  q "-"%char = true ->
  Py.forallb (fun c => Py.isspace c || q c) s = true ->
  Py.forallb (fun c => negb (Py.isspace c) && q c) (Py.sub_space_runs "-" b s) = true.
Proof.
  intros Hq. revert b. induction s as [|c s IH]; intros b; simpl; [done|].
  intros [Hc Hs]%andb_true_iff. destruct (Py.isspace c) eqn:Esp.
  - destruct b; [by apply IH|].
    rewrite append_cons, append_nil_l. simpl. rewrite Hq. by apply IH.
  - simpl in *. rewrite Esp, Hc. simpl. by apply IH.
Qed.

Lemma sub_space_runs_no_space b s :
  Py.forallb (fun c => negb (Py.isspace c)) s = true ->
  Py.sub_space_runs "-" b s = s.
Proof.
  revert b. induction s as [|c s IH]; intros b; simpl; [done|].
  intros [Hc Hs]%andb_true_iff. apply negb_true_iff in Hc. rewrite Hc.
  by rewrite IH.
Qed.

Lemma slug_char_not_space c : slug_char c = true -> Py.isspace c = false.
Proof. destruct c as [[] [] [] [] [] [] [] []]; vm_compute; congruence. Qed.

(** The anchor before the final truncation. *)
Lemma slug_body_shape s :
  let r := Py.sub_space_runs "-" false
             (Py.filter (fun c => Py.is_word c || Py.isspace c || Ascii.eqb c "-")
                (Py.lower (Py.strip s))) in
  Py.forallb slug_char r = true
  /\ Py.forallb (fun c => negb (Py.is_upper c)) r = true.
Proof.
  set (keep_char := fun c => Py.is_word c || Py.isspace c || Ascii.eqb c "-").
  simpl. split.
  - apply (forallb_impl (fun c => negb (Py.isspace c) && slug_char c)).
    { by intros c [_ H]%andb_true_iff. }
    apply sub_space_runs_chars; [done|].
    apply (forallb_impl keep_char); [|apply forallb_filter].
    intros c. unfold keep_char, slug_char.
    destruct (Py.is_word c), (Py.isspace c), (Ascii.eqb c "-"); done.
  - apply (forallb_impl (fun c => negb (Py.isspace c)
                                  && negb (Py.is_upper c))).
    { by intros c [_ H]%andb_true_iff. }
    apply (sub_space_runs_chars (fun c => negb (Py.is_upper c))); [done|].
    apply (forallb_impl (fun c => negb (Py.is_upper c))).
    { intros c ->. apply orb_true_r. }
    apply forallb_filter_other, forallb_lower_not_upper.
Qed.

Lemma slugify_result (s : string) :
  slugify s <> ""
  /\ (String.length (slugify s) <= 80)%nat
  /\ Py.forallb slug_char (slugify s) = true
  /\ Py.lower (slugify s) = slugify s.
Proof.
  destruct (slug_body_shape s) as [Hc Hu]. unfold slugify. cbv zeta in *.
  set (r := Py.sub_space_runs _ _ _) in *.
  destruct (Py.truthy r) eqn:Et.
  - split; [by destruct r|]. split; [apply length_take|]. split.
    + by apply forallb_take.
    + by apply lower_not_upper, forallb_take.
  - repeat split; [discriminate | simpl; lia].
Qed.

(** X1. An anchor is never empty, has at most 80 characters, consists of
    word characters and hyphens only (no white space), and has no
    upper-case letter. *)
Theorem slugify_shape (s : string) :
  slugify s <> ""
  /\ (String.length (slugify s) <= 80)%nat
  /\ Py.forallb slug_char (slugify s) = true
  /\ Py.lower (slugify s) = slugify s.
Proof. exact (slugify_result s). Qed.

(** X2. Building the anchor of an anchor changes nothing. *)
Theorem slugify_idempotent (s : string) : slugify (slugify s) = slugify s.
Proof.
  destruct (slugify_result s) as (Hne & Hlen & Hc & Hl).
  set (a := slugify s) in *.
  assert (Hsp : Py.forallb (fun c => negb (Py.isspace c)) a = true).
  { apply (forallb_impl slug_char); [|done].
    intros c H. by rewrite (slug_char_not_space c H). }
  unfold slugify at 1. unfold Py.strip.
  rewrite (lstrip_no_space a Hsp), (rstrip_no_space a Hsp), Hl.
  rewrite filter_all.
  2:{ apply (forallb_impl slug_char); [|done].
      intros c. unfold slug_char.
      destruct (Py.is_word c), (Py.isspace c), (Ascii.eqb c "-"); done. }
  rewrite (sub_space_runs_no_space _ a Hsp).
  destruct a; [done|]. simpl Py.truthy. cbv iota. by apply take_all.
Qed.

(** *** More on the assembler *)

Lemma keep_sublist (seen : gset string) (ps : list Page) :
  keep seen ps `sublist_of` ps.
Proof.
  revert seen. induction ps as [|p ps IH]; intros seen; simpl; [done|].
  destruct (Py.truthy _ && bool_decide _).
  - by apply sublist_skip.
  - by apply sublist_cons.
Qed.

Lemma keep_urls_distinct (seen : gset string) (ps : list Page) :
  NoDup (map (fun p => default "" (page_url p)) (keep seen ps)).
Proof.
  revert seen. induction ps as [|p ps IH]; intros seen; simpl;
    [apply NoDup_nil_2|].
  destruct (Py.truthy _ && bool_decide _); [|apply IH].
  simpl. apply NoDup_cons. split; [|apply IH].
  intros (q & Hq & Hin)%list_elem_of_fmap.
  destruct (elem_of_keep _ _ _ Hin) as (_ & Hnot & _). set_solver.
Qed.

Lemma keep_complete (seen : gset string) (ps : list Page) (p : Page) :
  p ∈ ps ->
  Py.truthy (default "" (page_url p)) = true ->
  default "" (page_url p) ∉ seen ->
  exists q, q ∈ keep seen ps /\ default "" (page_url q) = default "" (page_url p).
Proof.
  revert seen. induction ps as [|x ps IH]; intros seen Hin Ht Hnot.
  { by apply elem_of_nil in Hin. }
  simpl.
  destruct (decide (default "" (page_url x) = default "" (page_url p))) as [Heq|Hne].
  - rewrite Heq, Ht. rewrite bool_decide_eq_true_2 by done. simpl.
    exists x. split; [left|done].
  - apply elem_of_cons in Hin as [->|Hin]; [done|].
    destruct (Py.truthy _ && bool_decide _).
    + destruct (IH ({[default "" (page_url x)]} ∪ seen) Hin Ht) as (q & Hq & Hu).
      { set_solver. }
      exists q. split; [by right|done].
    + destruct (IH seen Hin Ht Hnot) as (q & Hq & Hu). by exists q.
Qed.

(** A list of pages with distinct, non-empty URLs passes the loop
    unchanged. *)
Lemma keep_all (seen : gset string) (ps : list Page) :
  NoDup (map (fun p => default "" (page_url p)) ps) ->
  (forall p, p ∈ ps -> Py.truthy (default "" (page_url p)) = true
                       /\ default "" (page_url p) ∉ seen) ->
  keep seen ps = ps.
Proof.
  revert seen. induction ps as [|p ps IH]; intros seen Hnd Hall; simpl; [done|].
  apply NoDup_cons in Hnd as [Hp Hnd].
  destruct (Hall p) as [Ht Hnot]; [left|].
  rewrite Ht, bool_decide_eq_true_2 by done. simpl. f_equal.
  apply IH; [done|]. intros q Hq. destruct (Hall q) as [Htq Hnq]; [by right|].
  split; [done|]. intros [Heq%elem_of_singleton|Hin]%elem_of_union; [|done].
  apply Hp. apply list_elem_of_fmap. by exists q.
Qed.

(** X3. The pages that the document is rendered from are pages of the
    snapshot in snapshot order, their URLs are non-empty and pairwise
    distinct, and every non-empty URL of the snapshot is the URL of one of
    them. *)
Theorem dedup_keeps_one_per_url (ps : list Page) :
  dedup ps `sublist_of` ps
  /\ NoDup (map page_url (dedup ps))
  /\ (forall q, q ∈ dedup ps ->
        exists u, page_url q = Some u /\ u <> "")
  /\ (forall p u, p ∈ ps -> page_url p = Some u -> u <> "" ->
        exists q, q ∈ dedup ps /\ page_url q = Some u).
Proof.
  rewrite dedup_keep.
  assert (Hsome : forall q, q ∈ keep ∅ ps ->
            exists u, page_url q = Some u /\ u <> "").
  { intros q Hq. destruct (elem_of_keep _ _ _ Hq) as (_ & _ & Ht).
    destruct (page_url q) as [u|]; [|done]. exists u. split; [done|].
    intros ->. done. }
  split; [apply keep_sublist|]. split; [|split; [done|]].
  - apply (NoDup_fmap_1 (default "")). rewrite <- list_fmap_compose.
    apply keep_urls_distinct.
  - intros p u Hp Hu Hne.
    destruct (keep_complete ∅ ps p Hp) as (q & Hq & Heq).
    + rewrite Hu. by destruct u.
    + set_solver.
    + exists q. split; [done|]. destruct (Hsome q Hq) as (v & Hv & _).
      rewrite Hv, Hu in Heq. simpl in Heq. by rewrite Hv, Heq.
Qed.

(** X4. Deduplicating twice is deduplicating once: the document of a
    snapshot is also the document of the snapshot that holds only the
    pages kept. *)
Theorem build_md_of_deduplicated (data : Snapshot) :
  dedup (dedup (snap_pages data)) = dedup (snap_pages data)
  /\ build_md (with_pages data (dedup (snap_pages data))) = build_md data.
Proof.
  assert (H : dedup (dedup (snap_pages data)) = dedup (snap_pages data)).
  { rewrite !dedup_keep. apply keep_all; [apply keep_urls_distinct|].
    intros p Hp. destruct (elem_of_keep _ _ _ Hp) as (_ & _ & Ht).
    split; [done|set_solver]. }
  split; [done|]. unfold build_md. rewrite !build_md_lines_eq. simpl.
  by rewrite H.
Qed.

Lemma flat_map_block {A B : Type} (f : A -> list B) (k : nat) (l : list A)
    (i j : nat) (x : A) :
  (forall a, length (f a) = k) ->
  l !! i = Some x -> (j < k)%nat ->
  flat_map f l !! (k * i + j)%nat = f x !! j.
Proof.
  intros Hk. revert i. induction l as [|a l IH]; intros i Hi Hj; [done|].
  simpl. destruct i as [|i]; simpl in Hi.
  - injection Hi as ->. rewrite Nat.mul_0_r. simpl.
    apply lookup_app_l. by rewrite Hk.
  - rewrite lookup_app_r by (rewrite Hk; lia).
    rewrite Hk. replace (k * S i + j - k)%nat with (k * i + j)%nat by lia.
    by apply IH.
Qed.

Lemma length_flat_map_block {A B : Type} (f : A -> list B) (k : nat) (l : list A) :
  (forall a, length (f a) = k) -> length (flat_map f l) = (k * length l)%nat.
Proof.
  intros Hk. induction l as [|a l IH]; simpl; [lia|].
  rewrite length_app, Hk, IH. lia.
Qed.

(** X5. The layout of the document for [n] pages kept: it has [10 + 8 n]
    lines; line [7 + i] is the entry of page [i] in the table of contents;
    the lines [7 + n] to [9 + n] are an empty line, the rule and an empty
    line; and the seven lines from [10 + n + 7 i] on are the section of
    page [i]. Lines are counted from 0. *)
Theorem build_md_layout (data : Snapshot) (i : nat) (p : Page)
    (Hi : dedup (snap_pages data) !! i = Some p) :
  let n := length (dedup (snap_pages data)) in
  let lines := build_md_lines data in
  length lines = (10 + 8 * n)%nat
  /\ lines !! (7 + i)%nat = Some (toc_line p)
  /\ lines !! (7 + n)%nat = Some ""
  /\ lines !! (8 + n)%nat = Some "---"
  /\ lines !! (9 + n)%nat = Some ""
  /\ (forall j, (j < 7)%nat ->
        lines !! (10 + n + 7 * i + j)%nat = section_lines p !! j).
Proof.
  intros n lines. unfold lines. rewrite build_md_lines_eq.
  set (uniq := dedup (snap_pages data)) in *.
  set (hd := head_lines _ _).
  assert (Hhd : length hd = 7%nat) by reflexivity.
  assert (Htoc : length (map toc_line uniq) = n) by apply length_map.
  assert (Hin : (i < n)%nat) by (by apply lookup_lt_Some in Hi).
  split; [|split; [|split; [|split; [|split]]]].
  - rewrite !length_app, Hhd, Htoc.
    rewrite (length_flat_map_block section_lines 7) by done. simpl.
    fold n. lia.
  - rewrite lookup_app_r by lia. rewrite Hhd.
    replace (7 + i - 7)%nat with i by lia.
    rewrite lookup_app_l by lia. by rewrite list_lookup_fmap, Hi.
  - rewrite lookup_app_r by lia. rewrite Hhd.
    rewrite lookup_app_r by lia. rewrite Htoc.
    by replace (7 + n - 7 - n)%nat with 0%nat by lia.
  - rewrite lookup_app_r by lia. rewrite Hhd.
    rewrite lookup_app_r by lia. rewrite Htoc.
    by replace (8 + n - 7 - n)%nat with 1%nat by lia.
  - rewrite lookup_app_r by lia. rewrite Hhd.
    rewrite lookup_app_r by lia. rewrite Htoc.
    by replace (9 + n - 7 - n)%nat with 2%nat by lia.
  - intros j Hj. rewrite lookup_app_r by lia. rewrite Hhd.
    rewrite lookup_app_r by lia. rewrite Htoc.
    rewrite lookup_app_r by (simpl; lia). simpl length.
    replace (10 + n + 7 * i + j - 7 - n - 3)%nat with (7 * i + j)%nat by lia.
    by apply flat_map_block.
Qed.

Lemma build_md_layout_witness :
  length (build_md_lines test_snapshot) = 18%nat
  /\ build_md_lines test_snapshot !! 7%nat = Some "- [Test Page](#test-page)"
  /\ build_md_lines test_snapshot !! 11%nat = Some "## Test Page".
Proof.
  destruct (build_md_layout test_snapshot 0
              (mkPage (Some "https://support.google.com/youtube/answer/1")
                 (Some "Test Page") (Some "Body text.")))
    as (Hlen & Htoc & _ & _ & _ & Hsec); [reflexivity|].
  split; [exact Hlen|]. split; [exact Htoc|]. exact (Hsec 0%nat ltac:(lia)).
Defined.

Lemma lstrip_all p s : Py.forallb p s = true -> Py.lstrip_by p s = "".
Proof.
  induction s as [|c s IH]; simpl; [done|].
  intros [Hc Hs]%andb_true_iff. by rewrite Hc, IH.
Qed.

Lemma strip_all_space s : Py.forallb Py.isspace s = true -> Py.strip s = "".
Proof. intros H. unfold Py.strip. by rewrite lstrip_all. Qed.

(** X6. Missing parts of a page. A page without a title, or with the
    empty title, is rendered under the heading "Untitled" with the anchor
    "untitled"; a title of white space only gives an empty heading with
    the anchor "section"; and a page without text has an empty line for
    its body. *)
Theorem page_fallbacks (p : Page) :
  (page_title p = None \/ page_title p = Some "" ->
   page_heading p = "Untitled" /\ toc_line p = "- [Untitled](#untitled)")
  /\ (forall t, page_title p = Some t -> t <> "" ->
        Py.forallb Py.isspace t = true ->
        page_heading p = "" /\ toc_line p = "- [](#section)")
  /\ (page_text p = None \/ page_text p = Some "" ->
      section_lines p !! 3%nat = Some "").
Proof.
  split; [|split].
  - intros H. assert (Hh : page_heading p = "Untitled").
    { unfold page_heading. by destruct H as [-> | ->]. }
    split; [done|]. unfold toc_line. by rewrite Hh.
  - intros t Ht Hne Hsp. assert (Hh : page_heading p = "").
    { unfold page_heading. rewrite Ht. simpl. destruct t; [done|].
      simpl py_or. by apply strip_all_space. }
    split; [done|]. unfold toc_line. by rewrite Hh.
  - intros H. unfold section_lines. simpl. by destruct H as [-> | ->].
Qed.

Lemma page_fallbacks_witness :
  toc_line (mkPage (Some "https://a/") None None) = "- [Untitled](#untitled)"
  /\ toc_line (mkPage (Some "https://a/") (Some "   ") None) = "- [](#section)".
Proof.
  split.
  - apply (page_fallbacks (mkPage (Some "https://a/") None None)). by left.
  - apply (proj1 (proj2 (page_fallbacks
                           (mkPage (Some "https://a/") (Some "   ") None)))
             "   "); [reflexivity | discriminate | reflexivity].
Defined.

(** *** More on URLs *)

Lemma strip_idem s : Py.strip (Py.strip s) = Py.strip s.
Proof.
  unfold Py.strip. destruct (Py.lstrip_by Py.isspace s) as [|c t] eqn:E; [done|].
  destruct (rstrip_head Py.isspace c t (lstrip_head _ _ _ _ E)) as [t' Ht].
  rewrite Ht. simpl Py.lstrip_by. rewrite (lstrip_head _ _ _ _ E).
  rewrite <- Ht. apply rstrip_idem.
Qed.

Lemma mem_rstrip c p s : Py.mem c s = false -> Py.mem c (Py.rstrip_by p s) = false.
Proof.
  induction s as [|x s IH]; simpl; [done|].
  intros [Hx Hs]%orb_false_iff. specialize (IH Hs).
  destruct (Py.rstrip_by p s).
  - destruct (p x); simpl; [done|]. by rewrite Hx.
  - simpl in *. by rewrite Hx, IH.
Qed.

Lemma mem_strip c s : Py.mem c s = false -> Py.mem c (Py.strip s) = false.
Proof. intros H. by apply mem_rstrip, mem_lstrip. Qed.

Lemma mem_take c n s : Py.mem c s = false -> Py.mem c (Py.take n s) = false.
Proof.
  revert s. induction n as [|n IH]; intros s; [done|].
  destruct s as [|x s]; simpl; [done|].
  intros [Hx Hs]%orb_false_iff. by rewrite Hx, IH.
Qed.

Lemma forallb_break_fst p s :
  Py.forallb (fun c => negb (p c)) (fst (Py.break p s)) = true.
Proof.
  induction s as [|x s IH]; simpl; [done|].
  destruct (p x) eqn:E; [done|]. destruct (Py.break p s). simpl in *.
  by rewrite E, IH.
Qed.

Lemma forallb_not_mem q c s :
  Py.forallb q s = true -> q c = false -> Py.mem c s = false.
Proof.
  intros Hs Hc. induction s as [|x s IH]; simpl in *; [done|].
  apply andb_true_iff in Hs as [Hx Hs]. rewrite (IH Hs), orb_false_r.
  destruct (Ascii.eqb_spec x c) as [->|]; [congruence|done].
Qed.

Lemma mem_hash_lower s : Py.mem "#" (Py.lower s) = Py.mem "#" s.
Proof.
  induction s as [|x s IH]; simpl; [done|]. rewrite IH. f_equal.
  destruct x as [[] [] [] [] [] [] [] []]; reflexivity.
Qed.

Lemma split_scheme_mem c a :
  Py.mem c a = false -> Py.mem c (snd (Urllib.split_scheme a)) = false.
Proof.
  intros Ha. unfold Urllib.split_scheme.
  destruct (mem_break c (Ascii.eqb ":") a Ha) as [_ Hpost].
  destruct (Py.break (Ascii.eqb ":") a) as [pre post].
  destruct pre as [|c0 pre]; [done|]. destruct post as [|x rest]; [done|].
  simpl in Hpost. apply orb_false_iff in Hpost as [_ Hrest].
  by destruct (_ && _).
Qed.

Lemma split_scheme_no_hash a : Py.mem "#" (fst (Urllib.split_scheme a)) = false.
Proof.
  unfold Urllib.split_scheme.
  destruct (Py.break (Ascii.eqb ":") a) as [pre post].
  destruct pre as [|c0 pre]; [done|]. destruct post as [|x rest]; [done|].
  destruct (Py.is_ascii_alpha c0 && _) eqn:E; [|done].
  apply andb_true_iff in E as [_ E]. cbn [fst]. rewrite mem_hash_lower.
  by apply (forallb_not_mem Urllib.scheme_char).
Qed.

Lemma netloc_step_mem c r :
  Py.mem c r = false ->
  Py.mem c (fst (Urllib.netloc_step r)) = false
  /\ Py.mem c (snd (Urllib.netloc_step r)) = false.
Proof.
  intros Hr. unfold Urllib.netloc_step.
  destruct (Py.startswith "//" r); [|done].
  by apply mem_break, mem_drop.
Qed.

Lemma netloc_step_no_hash r : Py.mem "#" (fst (Urllib.netloc_step r)) = false.
Proof.
  unfold Urllib.netloc_step. destruct (Py.startswith "//" r); [|done].
  unfold Urllib.splitnetloc.
  apply (forallb_not_mem (fun c => negb (Urllib.netloc_delim c)));
    [apply forallb_break_fst|done].
Qed.

Lemma fragment_step_no_hash x : Py.mem "#" (fst (Urllib.fragment_step x)) = false.
Proof.
  unfold Urllib.fragment_step. destruct (Py.mem "#" x) eqn:E; [|done].
  unfold Py.split1.
  pose proof (forallb_break_fst (Ascii.eqb "#") x) as H.
  destruct (Py.break (Ascii.eqb "#") x) as [a b]. simpl in *.
  by apply (forallb_not_mem _ _ _ H).
Qed.

Lemma query_step_mem c x :
  Py.mem c x = false ->
  Py.mem c (fst (Urllib.query_step x)) = false
  /\ Py.mem c (snd (Urllib.query_step x)) = false.
Proof.
  intros Hx. unfold Urllib.query_step. destruct (Py.mem "?" x); [|done].
  unfold Py.split1. destruct (mem_break c (Ascii.eqb "?") x Hx) as [H1 H2].
  destruct (Py.break (Ascii.eqb "?") x) as [a b]. simpl in *.
  split; [done|]. by apply (mem_drop c 1 b).
Qed.

Lemma splitparams_mem c x :
  Py.mem c x = false ->
  Py.mem c (fst (Urllib.splitparams x)) = false
  /\ Py.mem c (snd (Urllib.splitparams x)) = false.
Proof.
  intros Hx. unfold Urllib.splitparams. destruct (Urllib.rfind_slash x) as [r|].
  - destruct (mem_break c (Ascii.eqb ";") (Py.drop r x) (mem_drop c r x Hx))
      as [H1 H2].
    destruct (Py.break (Ascii.eqb ";") (Py.drop r x)) as [a b]. simpl in *.
    destruct b as [|y b]; [done|]. simpl in *.
    apply orb_false_iff in H2 as [_ H2]. split; [|done].
    by rewrite mem_app, (mem_take c r x Hx), H1.
  - destruct (mem_break c (Ascii.eqb ";") x Hx) as [H1 H2].
    destruct (Py.break (Ascii.eqb ";") x) as [a b]. simpl in *.
    split; [done|]. by apply (mem_drop c 1 b).
Qed.

(** No part that [urlparse] returns, the fragment aside, holds a ["#"]. *)
Lemma urlparse_no_hash u r :
  Urllib.urlparse u = Some r ->
  Py.mem "#" (Urllib.scheme r) = false /\ Py.mem "#" (Urllib.netloc r) = false
  /\ Py.mem "#" (Urllib.path r) = false /\ Py.mem "#" (Urllib.params r) = false
  /\ Py.mem "#" (Urllib.query r) = false.
Proof.
  unfold Urllib.urlparse, Urllib.urlsplit.
  pose proof (split_scheme_no_hash (Urllib.clean u)) as Hs.
  destruct (Urllib.split_scheme (Urllib.clean u)) as [scheme x1].
  pose proof (netloc_step_no_hash x1) as Hn.
  destruct (Urllib.netloc_step x1) as [netloc x2].
  destruct (negb (Urllib.brackets_ok netloc)); [done|].
  pose proof (fragment_step_no_hash x2) as Hf.
  destruct (Urllib.fragment_step x2) as [x3 fragment].
  destruct (query_step_mem "#" x3 Hf) as [Hp Hq].
  destruct (Urllib.query_step x3) as [path query]. cbn [fst snd] in *.
  destruct (Urllib.in_list scheme Urllib.uses_params && Py.mem ";" path).
  - destruct (splitparams_mem "#" path Hp) as [H1 H2].
    destruct (Urllib.splitparams path) as [path' params].
    intros [= Hr]. subst r. done.
  - intros [= Hr]. subst r. done.
Qed.

Lemma urlunparse_no_hash r :
  Py.mem "#" (Urllib.scheme r) = false -> Py.mem "#" (Urllib.netloc r) = false ->
  Py.mem "#" (Urllib.path r) = false -> Py.mem "#" (Urllib.params r) = false ->
  Py.mem "#" (Urllib.query r) = false -> Urllib.fragment r = "" ->
  Py.mem "#" (Urllib.urlunparse r) = false.
Proof.
  destruct r as [s n p a q f]. simpl. intros Hs Hn Hp Ha Hq ->.
  unfold Urllib.urlunparse, Urllib.urlunsplit. simpl.
  assert (Hpa : Py.mem "#" (if Py.truthy a then p +:+ ";" +:+ a else p) = false).
  { destruct (Py.truthy a); [|done]. by rewrite !mem_app, Hp, Ha. }
  set (pa := if Py.truthy a then _ else p) in *.
  repeat match goal with
         | |- context [if ?b then _ else _] => destruct b
         end;
    rewrite ?mem_app, ?Hs, ?Hn, ?Hpa, ?Hq; reflexivity.
Qed.

Lemma normalize_url_result (u v : string) :
  normalize_url u = Some v -> normalized v.
Proof.
  intros Hv. unfold normalize_url, Urllib.urldefrag in Hv.
  destruct (Py.mem "#" u) eqn:Eu.
  - destruct (Urllib.urlparse u) as [r|] eqn:Er; [|done].
    injection Hv as <-.
    destruct (urlparse_no_hash u r Er) as (Hs & Hn & Hp & Ha & Hq).
    split; [|apply strip_idem]. apply mem_strip.
    by apply urlunparse_no_hash.
  - injection Hv as <-. split; [by apply mem_strip|apply strip_idem].
Qed.

Lemma normalized_fixed (v : string) : normalized v -> normalize_url v = Some v.
Proof.
  intros [Hh Hs]. unfold normalize_url, Urllib.urldefrag. by rewrite Hh, Hs.
Qed.

(** X7. What [normalize_url] returns holds no ["#"] and no white space at
    its ends, and normalising it again returns it unchanged. *)
Theorem normalize_url_normalized (u v : string)
    (Hv : normalize_url u = Some v) :
  normalized v /\ normalize_url v = Some v.
Proof.
  pose proof (normalize_url_result u v Hv) as Hn.
  split; [done|]. by apply normalized_fixed.
Qed.

Lemma normalize_url_normalized_witness :
  normalized "http://a/b?x=1"
  /\ normalize_url "http://a/b?x=1" = Some "http://a/b?x=1".
Proof.
  apply (normalize_url_normalized "  HTTP://a/b?x=1#part two " "http://a/b?x=1").
  reflexivity.
Defined.

Lemma urlsplit_no_brackets u :
  Py.mem "[" u = false -> Py.mem "]" u = false ->
  Urllib.urlsplit u <> None.
Proof.
  intros Ho Hc. unfold Urllib.urlsplit.
  assert (Hclean : forall c, Py.mem c u = false ->
                     Py.mem c (Urllib.clean u) = false).
  { intros c H. unfold Urllib.clean. by apply mem_filter, mem_lstrip. }
  pose proof (split_scheme_mem "[" _ (Hclean _ Ho)) as Ho1.
  pose proof (split_scheme_mem "]" _ (Hclean _ Hc)) as Hc1.
  destruct (Urllib.split_scheme (Urllib.clean u)) as [scheme x1]. simpl in *.
  destruct (netloc_step_mem "[" x1 Ho1) as [Ho2 _].
  destruct (netloc_step_mem "]" x1 Hc1) as [Hc2 _].
  destruct (Urllib.netloc_step x1) as [netloc x2]. simpl in *.
  unfold Urllib.brackets_ok. rewrite Ho2, Hc2. simpl.
  destruct (Urllib.fragment_step x2) as [x3 fragment].
  by destruct (Urllib.query_step x3).
Qed.

Lemma forallb_lstrip q p s :
  Py.forallb q s = true -> Py.forallb q (Py.lstrip_by p s) = true.
Proof.
  induction s as [|c s IH]; simpl; [done|].
  intros [Hc Hs]%andb_true_iff. destruct (p c); [by apply IH|].
  simpl. by rewrite Hc, Hs.
Qed.

Lemma forallb_drop q n s :
  Py.forallb q s = true -> Py.forallb q (Py.drop n s) = true.
Proof.
  revert s. induction n as [|n IH]; intros s; [done|].
  destruct s as [|c s]; simpl; [done|].
  intros [_ Hs]%andb_true_iff. by apply IH.
Qed.

Lemma forallb_break q p s :
  Py.forallb q s = true ->
  Py.forallb q (fst (Py.break p s)) = true
  /\ Py.forallb q (snd (Py.break p s)) = true.
Proof.
  induction s as [|c s IH]; simpl; [done|].
  intros [Hc Hs]%andb_true_iff. destruct (p c); simpl.
  - by rewrite Hc, Hs.
  - destruct (IH Hs) as [H1 H2]. destruct (Py.break p s) as [a b].
    cbn [fst snd] in *. simpl. by rewrite Hc, H1.
Qed.

Lemma split_scheme_forallb q a :
  Py.forallb q a = true -> Py.forallb q (snd (Urllib.split_scheme a)) = true.
Proof.
  intros Ha. unfold Urllib.split_scheme.
  destruct (forallb_break q (Ascii.eqb ":") a Ha) as [_ Hpost].
  destruct (Py.break (Ascii.eqb ":") a) as [pre post].
  destruct pre as [|c0 pre]; [done|]. destruct post as [|x rest]; [done|].
  cbn [snd] in Hpost. simpl in Hpost. apply andb_true_iff in Hpost as [_ Hrest].
  by destruct (_ && _).
Qed.

Lemma netloc_step_forallb q r :
  Py.forallb q r = true -> Py.forallb q (fst (Urllib.netloc_step r)) = true.
Proof.
  intros Hr. unfold Urllib.netloc_step.
  destruct (Py.startswith "//" r); [|done].
  by apply forallb_break, forallb_drop.
Qed.

(** The network location of a URL holds characters of the URL only. *)
Lemma urlparse_netloc_forallb q u r :
  Py.forallb q u = true -> Urllib.urlparse u = Some r ->
  Py.forallb q (Urllib.netloc r) = true.
Proof.
  intros Hu. unfold Urllib.urlparse, Urllib.urlsplit.
  assert (Hc : Py.forallb q (Urllib.clean u) = true).
  { unfold Urllib.clean. by apply forallb_filter_other, forallb_lstrip. }
  pose proof (split_scheme_forallb q _ Hc) as Hs.
  destruct (Urllib.split_scheme (Urllib.clean u)) as [scheme x1].
  cbn [snd] in Hs.
  pose proof (netloc_step_forallb q x1 Hs) as Hn.
  destruct (Urllib.netloc_step x1) as [netloc x2]. cbn [fst] in Hn.
  destruct (negb (Urllib.brackets_ok netloc)); [done|].
  destruct (Urllib.fragment_step x2) as [x3 fragment].
  destruct (Urllib.query_step x3) as [path query].
  destruct (if _ && _ then _ else _) as [path' params].
  intros [= Hr]. by subst r.
Qed.

(** X8. On a URL of ASCII characters without square brackets none of the
    URL functions of the crawler raises: each returns a result. The
    network location that the parser reads from such a URL is ASCII too,
    which is when the parser skips the check of its normal form. *)
Theorem url_functions_total (u : string) (A : gset string)
    (Hascii : Py.forallb is_ascii u = true)
    (Hopen : Py.mem "[" u = false) (Hclose : Py.mem "]" u = false) :
  (exists p, Urllib.urlparse u = Some p
             /\ Py.forallb is_ascii (Urllib.netloc p) = true)
  /\ (exists v, normalize_url u = Some v)
  /\ (exists b, same_host u A = Some b)
  /\ (exists b, is_probably_policy_page u = Some b).
Proof.
  assert (Hp : exists r, Urllib.urlparse u = Some r).
  { unfold Urllib.urlparse.
    pose proof (urlsplit_no_brackets u Hopen Hclose) as H.
    destruct (Urllib.urlsplit u) as [[[[[s n] p] q] f]|]; [|done].
    destruct (if _ && _ then _ else _). by eexists. }
  destruct Hp as [r Hr]. split; [|split; [|split]].
  - exists r. split; [done|]. by apply (urlparse_netloc_forallb is_ascii u).
  - unfold normalize_url, Urllib.urldefrag. rewrite Hr.
    destruct (Py.mem "#" u); by eexists.
  - unfold same_host. rewrite Hr. by eexists.
  - unfold is_probably_policy_page. rewrite Hr.
    repeat match goal with
           | |- context [if ?b then _ else _] => destruct b
           end; by eexists.
Qed.

Lemma url_functions_total_witness :
  (exists p, Urllib.urlparse "https://youtube.com/creators/#top" = Some p
             /\ Py.forallb is_ascii (Urllib.netloc p) = true)
  /\ (exists v, normalize_url "https://youtube.com/creators/#top" = Some v)
  /\ (exists b, same_host "https://youtube.com/creators/#top"
                  DEFAULT_ALLOWED_HOSTS = Some b)
  /\ (exists b, is_probably_policy_page "https://youtube.com/creators/#top"
                = Some b).
Proof.
  apply (url_functions_total "https://youtube.com/creators/#top"
           DEFAULT_ALLOWED_HOSTS); reflexivity.
Defined.

(** *** [normalize_url] on a URL with a fragment *)






















(** *** What the rebuilt URL keeps of any URL *)









(** X9. The page classifier looks only at the lower-cased host and path of
    the URL; it accepts the help centre under [/youtube/] and the two
    YouTube hosts on paths that contain [/creators/] or
    [/howyoutubeworks/], and nothing else: an accepted URL has one of the
    three default hosts. *)
Theorem policy_page_boundary (u1 u2 : string) (p1 p2 : Urllib.ParseResult)
    (H1 : Urllib.urlparse u1 = Some p1)
    (H2 : Urllib.urlparse u2 = Some p2)
    (Hhost : Py.lower (Urllib.netloc p1) = Py.lower (Urllib.netloc p2))
    (Hpath : Py.lower (Urllib.path p1) = Py.lower (Urllib.path p2)) :
  is_probably_policy_page u1 = is_probably_policy_page u2
  /\ (is_probably_policy_page u1 = Some true <->
      (Py.lower (Urllib.netloc p1) = "support.google.com"
       /\ Py.startswith "/youtube/" (Py.lower (Urllib.path p1)) = true)
      \/ ((Py.lower (Urllib.netloc p1) = "www.youtube.com"
           \/ Py.lower (Urllib.netloc p1) = "youtube.com")
          /\ (Py.contains "/creators/" (Py.lower (Urllib.path p1)) = true
              \/ Py.contains "/howyoutubeworks/" (Py.lower (Urllib.path p1))
                 = true)))
  /\ (is_probably_policy_page u1 = Some true ->
      same_host u1 DEFAULT_ALLOWED_HOSTS = Some true).
Proof.
  unfold is_probably_policy_page, same_host. rewrite H1, H2, Hhost, Hpath.
  split; [done|].
  set (host := Py.lower (Urllib.netloc p2)).
  set (path := Py.lower (Urllib.path p2)).
  destruct (String.eqb_spec host "support.google.com") as [Ea|Ea].
  { split.
    - split; [intros [= H]; left; split; [exact Ea|exact H]|].
      intros [[_ H]|[[E|E] _]]; [f_equal; exact H|rewrite Ea in E; done..].
    - intros _. f_equal. apply bool_decide_eq_true_2. rewrite Ea.
      unfold DEFAULT_ALLOWED_HOSTS. set_solver. }
  destruct (String.eqb_spec host "www.youtube.com") as [Eb|Eb].
  { split.
    - simpl. split.
      + intros [= H]. right. split; [by left|].
        by apply orb_true_iff in H.
      + intros [[E _]|[_ H]]; [done|]. f_equal. by apply orb_true_iff.
    - intros _. f_equal. apply bool_decide_eq_true_2. rewrite Eb.
      unfold DEFAULT_ALLOWED_HOSTS. set_solver. }
  destruct (String.eqb_spec host "youtube.com") as [Ec|Ec].
  { split.
    - simpl. split.
      + intros [= H]. right. split; [by right|].
        by apply orb_true_iff in H.
      + intros [[E _]|[_ H]]; [done|]. f_equal. by apply orb_true_iff.
    - intros _. f_equal. apply bool_decide_eq_true_2. rewrite Ec.
      unfold DEFAULT_ALLOWED_HOSTS. set_solver. }
  simpl. split; [|done]. split; [done|].
  intros [[E _]|[[E|E] _]]; done.
Qed.

Lemma policy_page_boundary_witness :
  is_probably_policy_page "https://WWW.YouTube.com/Creators/x"
    = is_probably_policy_page "https://www.youtube.com/creators/x"
  /\ same_host "https://WWW.YouTube.com/Creators/x" DEFAULT_ALLOWED_HOSTS
     = Some true.
Proof.
  destruct (policy_page_boundary
              "https://WWW.YouTube.com/Creators/x"
              "https://www.youtube.com/creators/x"
              (Urllib.mkParseResult "https" "WWW.YouTube.com" "/Creators/x" "" "" "")
              (Urllib.mkParseResult "https" "www.youtube.com" "/creators/x" "" "" ""))
    as (Hsame & _ & Hhost); [reflexivity..|].
  split; [exact Hsame|]. apply Hhost. reflexivity.
Defined.

Lemma isspace_lower_char c : Py.isspace (Py.lower_char c) = Py.isspace c.
Proof. destruct c as [[] [] [] [] [] [] [] []]; reflexivity. Qed.

Lemma lstrip_lower s :
  Py.lstrip_by Py.isspace (Py.lower s) = Py.lower (Py.lstrip_by Py.isspace s).
Proof.
  induction s as [|c s IH]; simpl; [done|]. rewrite isspace_lower_char.
  by destruct (Py.isspace c).
Qed.

Lemma rstrip_lower s :
  Py.rstrip_by Py.isspace (Py.lower s) = Py.lower (Py.rstrip_by Py.isspace s).
Proof.
  induction s as [|c s IH]; simpl; [done|]. rewrite IH, isspace_lower_char.
  destruct (Py.rstrip_by Py.isspace s); simpl; [|done].
  by destruct (Py.isspace c).
Qed.

Lemma strip_lower s : Py.strip (Py.lower s) = Py.lower (Py.strip s).
Proof. unfold Py.strip. by rewrite lstrip_lower, rstrip_lower. Qed.

Lemma mem_comma_lower s : Py.mem "," (Py.lower s) = Py.mem "," s.
Proof.
  induction s as [|x s IH]; simpl; [done|]. rewrite IH. f_equal.
  destruct x as [[] [] [] [] [] [] [] []]; reflexivity.
Qed.

Lemma split_char_no_sep c s x : x ∈ split_char c s -> Py.mem c x = false.
Proof.
  revert x. induction s as [|y s IH]; intros x; simpl.
  - by intros ->%list_elem_of_singleton.
  - destruct (Ascii.eqb y c) eqn:E.
    + intros [->|H]%elem_of_cons; [done|by apply IH].
    + destruct (split_char c s) as [|l ls].
      * intros ->%list_elem_of_singleton. simpl. by rewrite E.
      * intros [->|H]%elem_of_cons.
        -- simpl. rewrite E. apply IH. left.
        -- apply IH. by right.
Qed.

(** X10. Every entry of the allow-list that the command line builds from
    [--hosts] is in lower case, has no white space around, is not empty
    and holds no comma. *)
Theorem hosts_of_argument_entries (hosts h : string)
    (Hh : h ∈ hosts_of_argument hosts) :
  Py.lower h = h /\ Py.strip h = h /\ h <> "" /\ Py.mem "," h = false.
Proof.
  unfold hosts_of_argument in Hh.
  apply elem_of_list_to_set, list_elem_of_fmap in Hh as (x & -> & Hx).
  apply list_elem_of_In, filter_In in Hx as [Hx Ht].
  apply list_elem_of_In in Hx.
  split; [apply lower_idem|]. split; [by rewrite <- strip_lower, strip_idem|].
  split.
  - destruct (Py.strip x); done.
  - rewrite mem_comma_lower. by apply mem_strip, (split_char_no_sep "," hosts).
Qed.

Lemma hosts_of_argument_entries_witness :
  Py.lower "youtube.com" = "youtube.com" /\ Py.strip "youtube.com" = "youtube.com"
  /\ "youtube.com" <> "" /\ Py.mem "," "youtube.com" = false.
Proof.
  apply (hosts_of_argument_entries " Support.Google.com, ,YouTube.COM " "youtube.com").
  vm_compute. reflexivity.
Defined.

(** *** More on the content and link extractors *)

Lemma contains_cons n c s :
  Py.contains n (String c s) = Py.startswith n (String c s) || Py.contains n s.
Proof. reflexivity. Qed.

Lemma startswith_cons a n b s :
  Py.startswith (String a n) (String b s) = Ascii.eqb a b && Py.startswith n s.
Proof. reflexivity. Qed.

Lemma squeeze_newlines_cons k c s :
  Py.squeeze_newlines k (String c s) =
    if Ascii.eqb c (ascii_of_N 10) then
      if Nat.ltb k 2 then String c (Py.squeeze_newlines (S k) s)
      else Py.squeeze_newlines (S k) s
    else String c (Py.squeeze_newlines 0 s).
Proof. reflexivity. Qed.

Lemma squeeze_newlines_runs k s :
  Py.contains triple_newline (Py.squeeze_newlines k s) = false
  /\ ((1 <= k)%nat ->
      Py.startswith (String (ascii_of_N 10) (String (ascii_of_N 10) ""))
        (Py.squeeze_newlines k s) = false)
  /\ ((2 <= k)%nat ->
      Py.startswith (String (ascii_of_N 10) "") (Py.squeeze_newlines k s) = false).
Proof.
  revert k. induction s as [|c s IH]; intros k; [done|].
  rewrite squeeze_newlines_cons.
  destruct (Ascii.eqb_spec c (ascii_of_N 10)) as [->|Hc].
  - destruct (Nat.ltb_spec k 2) as [Hk|Hk].
    + destruct (IH (S k)) as (H3 & H2 & H1).
      split; [|split].
      * simpl. rewrite H3, orb_false_r.
        change (Py.startswith (String (ascii_of_N 10) (String (ascii_of_N 10) ""))
                  (Py.squeeze_newlines (S k) s) = false).
        apply H2. lia.
      * intros Hk1. simpl.
        change (Py.startswith (String (ascii_of_N 10) "")
                  (Py.squeeze_newlines (S k) s) = false).
        apply H1. lia.
      * lia.
    + destruct (IH (S k)) as (H3 & H2 & H1).
      split; [done|]. split; intros _; [apply H2|apply H1]; lia.
  - destruct (IH 0%nat) as (H3 & _ & _).
    assert (Hne : Ascii.eqb (ascii_of_N 10) c = false).
    { rewrite Ascii.eqb_sym. by apply Ascii.eqb_neq. }
    split; [|split].
    + rewrite contains_cons. unfold triple_newline at 1.
      by rewrite startswith_cons, Hne, H3.
    + intros _. by rewrite startswith_cons, Hne.
    + intros _. by rewrite startswith_cons, Hne.
Qed.

Lemma contains_empty s : Py.contains "" s = true.
Proof. by destruct s. Qed.

Lemma startswith_app n a t :
  Py.startswith n a = true -> Py.startswith n (a +:+ t) = true.
Proof.
  revert a. induction n as [|x n IH]; intros a; [done|].
  destruct a as [|y a]; [done|]. rewrite append_cons. simpl.
  intros [-> H]%andb_true_iff. by rewrite IH.
Qed.

Lemma contains_app n a t :
  Py.contains n a = true -> Py.contains n (a +:+ t) = true.
Proof.
  induction a as [|y a IH].
  - simpl. rewrite orb_false_r. destruct n; [|done].
    intros _. apply contains_empty.
  - rewrite append_cons. simpl. intros [H|H]%orb_true_iff.
    + pose proof (startswith_app n (String y a) t H) as H'.
      rewrite append_cons in H'. by rewrite H'.
    + by rewrite (IH H), orb_true_r.
Qed.

Lemma contains_lstrip n p s :
  Py.contains n (Py.lstrip_by p s) = true -> Py.contains n s = true.
Proof.
  induction s as [|c s IH]; [done|]. simpl Py.lstrip_by.
  destruct (p c); [|done]. intros H. simpl. by rewrite (IH H), orb_true_r.
Qed.

Lemma rstrip_prefix p s : exists t, s = Py.rstrip_by p s +:+ t.
Proof.
  induction s as [|c s [t IH]]; [by exists ""|]. simpl.
  destruct (Py.rstrip_by p s) as [|x r].
  - destruct (p c).
    + by exists (String c s).
    + exists s. by rewrite append_cons, append_nil_l.
  - exists t. rewrite append_cons. by f_equal.
Qed.

Lemma contains_strip n s :
  Py.contains n s = false -> Py.contains n (Py.strip s) = false.
Proof.
  intros H. destruct (Py.contains n (Py.strip s)) eqn:E; [|done].
  unfold Py.strip in E.
  destruct (rstrip_prefix Py.isspace (Py.lstrip_by Py.isspace s)) as [t Ht].
  apply (contains_app _ _ t) in E. rewrite <- Ht in E.
  apply contains_lstrip in E. congruence.
Qed.

Lemma max_by_greatest {A : Type} (key : A -> nat) (best : A) (l : list A) :
  max_by key best l ∈ best :: l
  /\ (forall x, x ∈ best :: l -> (key x <= key (max_by key best l))%nat).
Proof.
  revert best. induction l as [|y l IH]; intros best; simpl.
  - split; [left|]. by intros x ->%list_elem_of_singleton.
  - destruct (IH (if Nat.ltb (key best) (key y) then y else best)) as [Hin Hmax].
    split.
    + apply elem_of_cons in Hin as [->|Hin].
      * destruct (Nat.ltb (key best) (key y)); [right; left|left].
      * right. by right.
    + intros x [->|[->|Hx]%elem_of_cons]%elem_of_cons.
      * etrans; [|apply Hmax; left].
        destruct (Nat.ltb_spec (key best) (key y)); lia.
      * etrans; [|apply Hmax; left].
        destruct (Nat.ltb_spec (key best) (key y)); lia.
      * apply Hmax. by right.
Qed.

(** X11. The text that the extractor returns has no white space at its
    ends and never three line feeds in a row. It is taken from the whole
    page when no selector matches, and otherwise from a matched element
    whose text, joined with spaces, is as long as that of any other
    matched element. *)
Theorem extract_text_clean (BeautifulSoup : string -> Bs4.node)
    (select : Bs4.node -> string -> list Bs4.node) (html : string) :
  let soup := BeautifulSoup html in
  let candidates := flat_map (select soup) content_selectors in
  let text := snd (extract_main_text BeautifulSoup select html) in
  Py.strip text = text
  /\ Py.contains triple_newline text = false
  /\ (candidates = [] ->
      text = Py.strip (Py.squeeze_newlines 0 (Bs4.get_text_strip Py.nl soup)))
  /\ (candidates <> [] ->
      exists best,
        best ∈ candidates
        /\ (forall c, c ∈ candidates ->
              (String.length (Bs4.get_text_strip " " c)
               <= String.length (Bs4.get_text_strip " " best))%nat)
        /\ text = Py.strip (Py.squeeze_newlines 0 (Bs4.get_text_strip Py.nl best))).
Proof.
  intros soup candidates text. unfold text, extract_main_text.
  fold soup. change (flat_map (select soup) _) with candidates. cbn [snd].
  split; [apply strip_idem|]. split.
  { apply contains_strip. apply squeeze_newlines_runs. }
  destruct candidates as [|c cs]; split; try done.
  intros _.
  destruct (max_by_greatest
              (fun el => String.length (Bs4.get_text_strip " " el)) c cs)
    as [Hin Hmax].
  eexists. split; [exact Hin|]. split; [exact Hmax|done].
Qed.

Lemma links_of_cons (urljoin : string -> string -> option string)
    (base : string) (a : Bs4.node) (rest : list Bs4.node) :
  links_of urljoin base (a :: rest) =
    if Py.startswith "javascript:" (Py.strip (default "" (Bs4.attr "href" a)))
       || Py.startswith "#" (Py.strip (default "" (Bs4.attr "href" a)))
    then links_of urljoin base rest
    else
      match urljoin base (Py.strip (default "" (Bs4.attr "href" a))) with
      | None => None
      | Some absu =>
          match normalize_url absu with
          | None => None
          | Some absu =>
              match links_of urljoin base rest with
              | None => None
              | Some links => Some (absu :: links)
              end
          end
      end.
Proof. reflexivity. Qed.

Lemma links_of_spec (urljoin : string -> string -> option string)
    (base : string) (anchors : list Bs4.node) (links : list string) :
  links_of urljoin base anchors = Some links ->
  (length links <= length anchors)%nat
  /\ forall l, l ∈ links ->
       exists a absu,
         a ∈ anchors
         /\ Py.startswith "javascript:" (Py.strip (default "" (Bs4.attr "href" a)))
            = false
         /\ Py.startswith "#" (Py.strip (default "" (Bs4.attr "href" a))) = false
         /\ urljoin base (Py.strip (default "" (Bs4.attr "href" a))) = Some absu
         /\ normalize_url absu = Some l.
Proof.
  revert links. induction anchors as [|a rest IH]; intros links.
  - intros [= <-]. split; [done|]. by intros l ?%elem_of_nil.
  - rewrite links_of_cons.
    set (href := Py.strip (default "" (Bs4.attr "href" a))).
    destruct (Py.startswith "javascript:" href || Py.startswith "#" href)
      eqn:Eskip.
    + intros H. destruct (IH links H) as [Hlen Hl]. split; [simpl; lia|].
      intros l Hin. destruct (Hl l Hin) as (a' & absu & Ha & ?).
      exists a', absu. split; [by right|done].
    + apply orb_false_iff in Eskip as [Ej Eh].
      destruct (urljoin base href) as [absu|] eqn:Eu; [|done].
      destruct (normalize_url absu) as [v|] eqn:Ev; [|done].
      destruct (links_of urljoin base rest) as [ls|]; [|done].
      intros [= <-]. destruct (IH ls eq_refl) as [Hlen Hl]. split; [simpl; lia|].
      intros l [->|Hin]%elem_of_cons.
      * exists a, absu. split; [left|done].
      * destruct (Hl l Hin) as (a' & absu' & Ha & ?).
        exists a', absu'. split; [by right|done].
Qed.

(** X12. Every link that the link extractor returns comes from an anchor
    with an [href] that, trimmed, starts neither with [javascript:] nor
    with ["#"]; it is that [href] joined to the base URL and normalised, so
    it holds no ["#"] and no white space at its ends; and there are at most
    as many links as such anchors in the page. *)
Theorem extract_links_normalized (BeautifulSoup : string -> Bs4.node)
    (urljoin : string -> string -> option string)
    (base_url html : string) (links : list string)
    (Hlinks : extract_links BeautifulSoup urljoin base_url html = Some links) :
  (length links
   <= length (Bs4.find_all_with "a" "href" (BeautifulSoup html)))%nat
  /\ forall l, l ∈ links ->
       normalized l
       /\ exists a href absu,
            a ∈ Bs4.descendants (BeautifulSoup html)
            /\ Bs4.is_tag "a" a = true
            /\ Bs4.attr "href" a = Some href
            /\ Py.startswith "javascript:" (Py.strip href) = false
            /\ Py.startswith "#" (Py.strip href) = false
            /\ urljoin base_url (Py.strip href) = Some absu
            /\ normalize_url absu = Some l.
Proof.
  unfold extract_links in Hlinks.
  destruct (links_of_spec _ _ _ _ Hlinks) as [Hlen Hl]. split; [done|].
  intros l Hin. destruct (Hl l Hin) as (a & absu & Ha & Hj & Hh & Hu & Hn).
  split; [by apply (normalize_url_result absu l)|].
  unfold Bs4.find_all_with in Ha.
  apply list_elem_of_In, filter_In in Ha as [Ha Hf].
  apply list_elem_of_In in Ha. apply andb_true_iff in Hf as [Htag Hattr].
  apply bool_decide_eq_true in Hattr as [href Hhref].
  rewrite Hhref in *. simpl in *. by exists a, href, absu.
Qed.

Lemma extract_links_normalized_witness :
  normalized "https://support.google.com/youtube/a".
Proof.
  destruct (extract_links_normalized example_parser example_urljoin
              "https://support.google.com/youtube/b" "B"
              [ "https://support.google.com/youtube/a" ])
    as [_ H]; [reflexivity|].
  apply (H "https://support.google.com/youtube/a"). left.
Defined.

(** *** More on the crawl loop *)

Lemma policy_page_default_host (u : string) :
  is_probably_policy_page u = Some true ->
  same_host u DEFAULT_ALLOWED_HOSTS = Some true /\ u <> "".
Proof.
  intros H. split; [|by intros ->].
  unfold is_probably_policy_page, same_host in *.
  destruct (Urllib.urlparse u) as [p|]; [|done]. f_equal.
  apply bool_decide_eq_true_2. unfold DEFAULT_ALLOWED_HOSTS.
  set (host := Py.lower (Urllib.netloc p)) in *.
  destruct (String.eqb_spec host "support.google.com") as [E|_];
    [rewrite E; set_solver|].
  destruct (String.eqb_spec host "www.youtube.com") as [E|_];
    [rewrite E; set_solver|].
  destruct (String.eqb_spec host "youtube.com") as [E|_];
    [rewrite E; set_solver|].
  done.
Qed.

Lemma enqueue_elem (seen : gset string) (q links : list string) (x : string) :
  x ∈ enqueue seen q links -> x ∈ q \/ x ∈ links.
Proof.
  unfold enqueue. revert q. induction links as [|l links IH]; intros q; simpl.
  - by left.
  - intros H. destruct (IH _ H) as [Hq|Hl]; [|right; by right].
    destruct (bool_decide (l ∈ seen)); [by left|].
    apply elem_of_app in Hq as [Hq| ->%list_elem_of_singleton]; [by left|].
    right. left.
Qed.

Lemma sublist_urls (ps : list Page) (l : list string) :
  map page_url ps `sublist_of` map Some l ->
  map (fun p => default "" (page_url p)) ps `sublist_of` l.
Proof.
  revert ps. induction l as [|x l IH]; intros ps H.
  - destruct ps as [|p ps]; [constructor|]. simpl in H. inversion H.
  - destruct ps as [|p ps]; [apply sublist_nil_l|]. simpl in H.
    inversion H as [|? ? ? Hs|? ? ? Hs]; subst.
    + simpl. replace (page_url p) with (Some x) by done. simpl.
      apply sublist_skip. by apply IH.
    + apply sublist_cons. by apply (IH (p :: ps)).
Qed.

Section CrawlerMore.

Context (BeautifulSoup : string -> Bs4.node)
        (select : Bs4.node -> string -> list Bs4.node)
        (urljoin : string -> string -> option string)
        (W : Type)
        (session_get : W -> string -> W * fetch_result)
        (utc_now : W -> string)
        (RobotFileParser : Type)
        (rp_parse : list string -> RobotFileParser)
        (rp_can_fetch : RobotFileParser -> string -> string -> bool).

Local Abbreviation body := (loop_body BeautifulSoup select urljoin W session_get
                    RobotFileParser rp_can_fetch).
Local Abbreviation while := (while_loop BeautifulSoup select urljoin W session_get
                     RobotFileParser rp_can_fetch).
Local Abbreviation run_loop := (crawl_loop BeautifulSoup select urljoin W session_get
                   RobotFileParser rp_parse rp_can_fetch).
Local Abbreviation inv_more := (crawl_inv_more BeautifulSoup select W session_get
                   RobotFileParser rp_can_fetch).

(** One turn of the loop, with what it requests and what it appends. *)
Lemma loop_body_step (rp : RobotFileParser) (allowed : gset string)
    (st st' : State W) :
  queue st <> [] ->
  body rp allowed st = Some st' ->
  exists url q,
    queue st = url :: q
    /\ ((fetched st' = fetched st /\ pages st' = pages st /\ queue st' = q)
        \/ (is_probably_policy_page url = Some true
            /\ rp_can_fetch rp USER_AGENT url = true
            /\ fetched st' = fetched st ++ [ url ]
            /\ ((pages st' = pages st /\ queue st' = q)
                \/ exists content_type html links,
                     session_get (world st) url
                       = (world st', Response 200 content_type html)
                     /\ Py.contains "text/html" (default "" content_type) = true
                     /\ extract_links BeautifulSoup urljoin url html = Some links
                     /\ pages st' =
                          pages st ++
                          [ mkPage (Some url)
                              (Some (fst (extract_main_text BeautifulSoup select html)))
                              (Some (snd (extract_main_text BeautifulSoup select html))) ]
                     /\ queue st' = enqueue ({[url]} ∪ seen st) q links))).
Proof.
  intros Hq. unfold loop_body.
  destruct (queue st) as [|url q] eqn:Eq; [done|].
  intros H. exists url, q. split; [done|].
  case_bool_decide as Hseen.
  { left. by injection H as <-. }
  destruct (same_host url allowed) as [[]|] eqn:Eh; [| |done].
  2:{ left. by injection H as <-. }
  destruct (is_probably_policy_page url) as [[]|] eqn:Ep; [| |done].
  2:{ left. by injection H as <-. }
  destruct (rp_can_fetch rp USER_AGENT url) eqn:Er; simpl in H.
  2:{ left. by injection H as <-. }
  right. split; [done|]. split; [done|].
  destruct (session_get (world st) url) as [w' resp] eqn:Eg.
  destruct resp as [|status_code content_type html].
  { injection H as <-. split; [done|]. by left. }
  destruct (negb (status_code =? 200)%Z) eqn:Es; simpl in H.
  { injection H as <-. split; [done|]. by left. }
  destruct (negb (Py.contains "text/html" (default "" content_type))) eqn:Ec.
  { injection H as <-. split; [done|]. by left. }
  apply negb_false_iff in Es, Ec. apply Z.eqb_eq in Es. subst status_code.
  destruct (extract_main_text BeautifulSoup select html) as [title text] eqn:Ex.
  destruct (extract_links BeautifulSoup urljoin url html) as [links|] eqn:El;
    [|done].
  injection H as <-. split; [done|]. right.
  exists content_type, html, links. simpl. done.
Qed.

Lemma crawl_inv_more_turn (rp : RobotFileParser) (u0 : string)
    (max_pages : Z) (allowed : gset string) (st st' : State W) :
  inv_more rp u0 st ->
  loop_cond W max_pages st = true ->
  body rp allowed st = Some st' ->
  inv_more rp u0 st'.
Proof.
  intros (Hf & Hqu & Hsub & Hresp & Hseed) [Hq _]%loop_cond_queue Hb.
  destruct (loop_body_step rp allowed st st' Hq Hb) as (url & q & Eq & Hcase).
  assert (Hq' : forall u, u ∈ q -> normalized u).
  { intros u Hu. apply Hqu. rewrite Eq. by right. }
  assert (Hurl : normalized url).
  { apply Hqu. rewrite Eq. left. }
  destruct Hcase as [(Hfe & Hpg & Hqq)|(Hpol & Hrob & Hfe & Hcase)].
  { unfold crawl_inv_more. rewrite Hfe, Hpg, Hqq.
    split; [exact Hf|]. split; [exact Hq'|]. split; [exact Hsub|].
    split; [exact Hresp|].
    unfold seed_first in *. rewrite Hfe, Hpg, Hqq.
    destruct Hseed as [(F & P & Q)|(rest & F & Hs)].
    - left. split; [done|]. split; [done|]. right.
      destruct Q as [Q|Q]; rewrite Eq in Q; [by injection Q as _ ->|done].
    - right. exists rest. split; [done|].
      destruct Hs as [(P & Q & R)|Hs]; [by rewrite Eq in Q|by right]. }
  assert (Hf' : forall u, u ∈ fetched st ++ [ url ] ->
                  is_probably_policy_page u = Some true
                  /\ rp_can_fetch rp USER_AGENT u = true /\ normalized u).
  { intros u [Hu| ->%list_elem_of_singleton]%elem_of_app; [by apply Hf|done]. }
  destruct Hcase as [(Hpg & Hqq)|(ct & html & links & Hget & Hct & Hl & Hpg & Hqq)].
  { unfold crawl_inv_more. rewrite Hfe, Hpg, Hqq.
    split; [done|]. split; [done|]. split; [|split; [done|]].
    - rewrite map_app. by apply sublist_inserts_r.
    - unfold seed_first in *. rewrite Hfe, Hpg, Hqq.
      destruct Hseed as [(F & P & Q)|(rest & F & Hs)].
      + right. exists []. rewrite F. destruct Q as [Q|Q]; rewrite Eq in Q; [|done].
        injection Q as -> ->. split; [done|]. by left.
      + right. exists (rest ++ [ url ]). rewrite F. split; [done|].
        destruct Hs as [(P & Q & R)|Hs]; [by rewrite Eq in Q|by right]. }
  unfold crawl_inv_more. rewrite Hfe, Hpg, Hqq.
  split; [done|]. split; [|split; [|split]].
  - intros u [Hu|Hu]%enqueue_elem; [by apply Hq'|].
    unfold extract_links in Hl.
    destruct (links_of_spec _ _ _ _ Hl) as [_ Hlinks].
    destruct (Hlinks u Hu) as (a & absu & _ & _ & _ & _ & Hn).
    by apply (normalize_url_result absu).
  - rewrite !map_app. simpl. by apply sublist_app.
  - intros p [Hp| ->%list_elem_of_singleton]%elem_of_app; [by apply Hresp|].
    exists (world st), url, ct, html. by rewrite Hget.
  - unfold seed_first in *. rewrite Hfe, Hpg, Hqq.
    destruct Hseed as [(F & P & Q)|(rest & F & Hs)].
    + right. exists []. rewrite F, P. destruct Q as [Q|Q]; rewrite Eq in Q; [|done].
      injection Q as -> ->. split; [done|]. right. by eexists _, _.
    + right. exists (rest ++ [ url ]). rewrite F. split; [done|].
      destruct Hs as [(P & Q & R)|(p & ps & P & U)]; [by rewrite Eq in Q|].
      right. exists p, (ps ++ [ mkPage (Some url)
        (Some (fst (extract_main_text BeautifulSoup select html)))
        (Some (snd (extract_main_text BeautifulSoup select html))) ]).
      by rewrite P.
Qed.

Lemma crawl_loop_inv_more (fuel : nat) (w w1 : W) (rp : RobotFileParser)
    (start_url u0 : string) (max_pages : Z) (allowed : gset string)
    (st : State W) :
  get_robots_parser W session_get RobotFileParser rp_parse w start_url
    = Some (w1, rp) ->
  normalize_url start_url = Some u0 ->
  run_loop fuel w start_url max_pages allowed = Finished st ->
  inv_more rp u0 st.
Proof.
  unfold crawl_loop. intros -> Hu0. rewrite Hu0. intros Hrun.
  eapply (while_loop_invariant BeautifulSoup select urljoin W session_get
            RobotFileParser rp_can_fetch (inv_more rp u0)); [| |exact Hrun].
  - intros s s'. apply crawl_inv_more_turn.
  - unfold crawl_inv_more. simpl.
    split; [by intros u ?%elem_of_nil|]. split; [|split; [done|split]].
    + intros u ->%list_elem_of_singleton.
      apply (normalize_url_result start_url u0 Hu0).
    + by intros p ?%elem_of_nil.
    + left. split; [done|]. split; [done|]. by left.
Qed.

(** A finished run went through both set-up steps. *)
Lemma crawl_loop_setup (fuel : nat) (w : W) (start_url : string)
    (max_pages : Z) (allowed : gset string) (st : State W) :
  run_loop fuel w start_url max_pages allowed = Finished st ->
  exists w1 rp u0,
    get_robots_parser W session_get RobotFileParser rp_parse w start_url
      = Some (w1, rp)
    /\ normalize_url start_url = Some u0.
Proof.
  unfold crawl_loop.
  destruct (get_robots_parser _ _ _ _ _ _) as [[w1 rp]|]; [|done].
  destruct (normalize_url start_url) as [u0|]; [|done].
  intros _. by exists w1, rp, u0.
Qed.

Lemma page_url_fetched (st : State W) (p : Page) :
  map page_url (pages st) `sublist_of` map Some (fetched st) ->
  p ∈ pages st -> exists u, page_url p = Some u /\ u ∈ fetched st.
Proof.
  intros Hsub Hp.
  assert (Hin : page_url p ∈ map page_url (pages st)).
  { apply list_elem_of_fmap. by exists p. }
  apply (elem_of_sublist _ _ _ Hin) in Hsub.
  rename Hsub into Hin'. clear Hin. rename Hin' into Hin.
  apply list_elem_of_fmap in Hin as (u & Hu & Hin). by exists u.
Qed.


(** X13. No URL that the robots policy of the run refuses is requested by
    the loop, and no page of the snapshot has such a URL. *)
Theorem crawl_respects_robots (fuel : nat) (w w1 : W) (rp : RobotFileParser)
    (start_url : string) (max_pages : Z) (allowed : gset string)
    (st : State W) (url : string)
    (Hrp : get_robots_parser W session_get RobotFileParser rp_parse w start_url
           = Some (w1, rp))
    (Hrun : crawl_loop BeautifulSoup select urljoin W session_get
              RobotFileParser rp_parse rp_can_fetch
              fuel w start_url max_pages allowed
            = Finished st)
    (Hrefused : rp_can_fetch rp USER_AGENT url = false) :
  (url ∉ fetched st)
  /\ (forall p, p ∈ pages st -> page_url p <> Some url).
Proof.
  destruct (crawl_loop_setup _ _ _ _ _ _ Hrun) as (w1' & rp' & u0 & Hrp' & Hu0).
  pose proof (crawl_loop_inv_more _ _ _ _ _ _ _ _ _ Hrp Hu0 Hrun)
    as (Hf & _ & Hsub & _).
  assert (Hnot : url ∉ fetched st).
  { intros Hin. destruct (Hf url Hin) as (_ & Hok & _). congruence. }
  split; [done|]. intros p Hp Hu.
  destruct (page_url_fetched st p Hsub Hp) as (u & Hu' & Hin).
  rewrite Hu in Hu'. by injection Hu' as <-.
Qed.

(** X14. Every URL that the loop requests is accepted by the page
    classifier, so its host is one of the three default hosts as well as
    an entry of the allow-list given: the allow-list can only narrow the
    crawl. Every page of the snapshot has a URL that was requested. *)
Theorem crawl_requests_policy_pages (fuel : nat) (w : W) (start_url : string)
    (max_pages : Z) (allowed : gset string) (st : State W) (url : string)
    (Hrun : crawl_loop BeautifulSoup select urljoin W session_get
              RobotFileParser rp_parse rp_can_fetch
              fuel w start_url max_pages allowed
            = Finished st)
    (Hin : url ∈ fetched st) :
  is_probably_policy_page url = Some true
  /\ same_host url DEFAULT_ALLOWED_HOSTS = Some true
  /\ same_host url allowed = Some true
  /\ (forall p, p ∈ pages st -> exists u, page_url p = Some u /\ u ∈ fetched st).
Proof.
  destruct (crawl_loop_setup _ _ _ _ _ _ Hrun) as (w1 & rp & u0 & Hrp & Hu0).
  pose proof (crawl_loop_inv_more _ _ _ _ _ _ _ _ _ Hrp Hu0 Hrun)
    as (Hf & _ & Hsub & _).
  destruct (crawl_loop_inv BeautifulSoup select urljoin W session_get
              RobotFileParser rp_parse rp_can_fetch _ _ _ _ _ _ Hrun)
    as [(_ & Hhost & _) _].
  destruct (Hf url Hin) as (Hpol & _ & _).
  split; [done|]. split; [by apply policy_page_default_host|].
  split; [by destruct (Hhost url Hin)|].
  intros p Hp. by apply page_url_fetched.
Qed.

(** X15. Every URL that the loop requests, every URL left in the queue
    and every page URL of the snapshot is normalised: it holds no ["#"] and
    no white space at its ends; a page URL is not empty. *)
Theorem crawl_urls_normalized (fuel : nat) (w : W) (start_url : string)
    (max_pages : Z) (allowed : gset string) (st : State W)
    (Hrun : crawl_loop BeautifulSoup select urljoin W session_get
              RobotFileParser rp_parse rp_can_fetch
              fuel w start_url max_pages allowed
            = Finished st) :
  (forall u, u ∈ fetched st -> normalized u)
  /\ (forall u, u ∈ queue st -> normalized u)
  /\ (forall p, p ∈ pages st ->
        exists u, page_url p = Some u /\ normalized u /\ u <> "").
Proof.
  destruct (crawl_loop_setup _ _ _ _ _ _ Hrun) as (w1 & rp & u0 & Hrp & Hu0).
  pose proof (crawl_loop_inv_more _ _ _ _ _ _ _ _ _ Hrp Hu0 Hrun)
    as (Hf & Hq & Hsub & _).
  split; [|split; [done|]].
  - intros u Hu. by destruct (Hf u Hu) as (_ & _ & ?).
  - intros p Hp. destruct (page_url_fetched st p Hsub Hp) as (u & Hu & Hin).
    destruct (Hf u Hin) as (Hpol & _ & Hn). exists u.
    split; [done|]. split; [done|]. by apply policy_page_default_host.
Qed.

(** X16. Every page of the snapshot was made from a response with status
    200 whose content type holds [text/html], to a request for the URL of
    the page: its title and text are what the extractor returns for the
    body of that response. *)
Theorem crawl_pages_from_html_responses (fuel : nat) (w : W)
    (start_url : string) (max_pages : Z) (allowed : gset string)
    (st : State W) (p : Page)
    (Hrun : crawl_loop BeautifulSoup select urljoin W session_get
              RobotFileParser rp_parse rp_can_fetch
              fuel w start_url max_pages allowed
            = Finished st)
    (Hp : p ∈ pages st) :
  page_of_response BeautifulSoup select W session_get p.
Proof.
  destruct (crawl_loop_setup _ _ _ _ _ _ Hrun) as (w1 & rp & u0 & Hrp & Hu0).
  pose proof (crawl_loop_inv_more _ _ _ _ _ _ _ _ _ Hrp Hu0 Hrun)
    as (_ & _ & _ & Hresp & _).
  by apply Hresp.
Qed.

(** X17. The pages of the snapshot are in the order of the requests: their
    URLs are the URLs requested, in that order, with those left out that
    gave no page. *)
Theorem crawl_pages_in_fetch_order (fuel : nat) (w : W) (start_url : string)
    (max_pages : Z) (allowed : gset string) (st : State W)
    (Hrun : crawl_loop BeautifulSoup select urljoin W session_get
              RobotFileParser rp_parse rp_can_fetch
              fuel w start_url max_pages allowed
            = Finished st) :
  map page_url (pages st) `sublist_of` map Some (fetched st)
  /\ (length (pages st) <= length (fetched st))%nat.
Proof.
  destruct (crawl_loop_setup _ _ _ _ _ _ Hrun) as (w1 & rp & u0 & Hrp & Hu0).
  pose proof (crawl_loop_inv_more _ _ _ _ _ _ _ _ _ Hrp Hu0 Hrun)
    as (_ & _ & Hsub & _).
  split; [done|]. apply sublist_length in Hsub. by rewrite !length_map in Hsub.
Qed.

(** X18. The first request of the loop is for the normalised seed URL, and
    a snapshot that is not empty starts with the page of the seed: when
    the seed gives no page, the snapshot is empty and the loop has made at
    most that one request. *)
Theorem crawl_starts_with_seed (fuel : nat) (w : W) (start_url u0 : string)
    (max_pages : Z) (allowed : gset string) (st : State W)
    (Hu0 : normalize_url start_url = Some u0)
    (Hrun : crawl_loop BeautifulSoup select urljoin W session_get
              RobotFileParser rp_parse rp_can_fetch
              fuel w start_url max_pages allowed
            = Finished st) :
  (fetched st = [] \/ exists rest, fetched st = u0 :: rest)
  /\ (pages st = [] \/ exists p ps, pages st = p :: ps /\ page_url p = Some u0)
  /\ (pages st = [] -> fetched st = [] \/ fetched st = [ u0 ]).
Proof.
  destruct (crawl_loop_setup _ _ _ _ _ _ Hrun) as (w1 & rp & u0' & Hrp & Hu0').
  pose proof (crawl_loop_inv_more _ _ _ _ _ _ _ _ _ Hrp Hu0 Hrun)
    as (_ & _ & _ & _ & Hseed).
  destruct Hseed as [(F & P & _)|(rest & F & [(P & _ & R)|(p & ps & P & U)])].
  - split; [by left|]. split; [by left|]. by left.
  - subst rest. split; [right; by eexists|]. split; [by left|]. by right.
  - split; [right; by eexists|]. split; [right; by eexists _, _|].
    by rewrite P.
Qed.


Lemma while_loop_fuel_enough (rp : RobotFileParser) (max_pages : Z)
    (allowed : gset string) (st : State W) :
  exists fuel, forall fuel', (fuel <= fuel')%nat ->
    while rp max_pages allowed fuel' st = while rp max_pages allowed fuel st
    /\ while rp max_pages allowed fuel st <> OutOfFuel.
Proof.
  destruct (while_loop_terminates BeautifulSoup select urljoin W session_get
              RobotFileParser rp_can_fetch rp max_pages allowed st) as [fuel Hf].
  exists fuel. intros fuel' Hle. split; [|done].
  by apply (while_loop_more_fuel BeautifulSoup select urljoin W session_get
              RobotFileParser rp_can_fetch rp max_pages allowed fuel fuel' st).
Qed.

(** X20. Every crawl ends, whatever the network returns and however many
    links the pages hold: from some amount of fuel on the run gives a
    result (a snapshot or an exception), and more fuel gives the same
    result. *)
Theorem crawl_terminates (w : W) (start_url : string) (max_pages : Z)
    (allowed : gset string) :
  exists fuel,
    crawl BeautifulSoup select urljoin W session_get utc_now
      RobotFileParser rp_parse rp_can_fetch
      fuel w start_url max_pages allowed
    <> OutOfFuel
    /\ forall fuel', (fuel <= fuel')%nat ->
         crawl BeautifulSoup select urljoin W session_get utc_now
           RobotFileParser rp_parse rp_can_fetch
           fuel' w start_url max_pages allowed
         = crawl BeautifulSoup select urljoin W session_get utc_now
             RobotFileParser rp_parse rp_can_fetch
             fuel w start_url max_pages allowed.
Proof.
  unfold crawl, crawl_loop.
  destruct (get_robots_parser _ _ _ _ _ _) as [[w1 rp]|]; [|by exists O].
  destruct (normalize_url start_url) as [u0|]; [|by exists O].
  destruct (while_loop_fuel_enough rp max_pages allowed (mkState ∅ [ u0 ] [] w1 []))
    as [fuel Hf].
  exists fuel. destruct (Hf fuel (le_n _)) as [_ Hne]. split.
  - by destruct (while rp max_pages allowed fuel _).
  - intros fuel' Hle. by destruct (Hf fuel' Hle) as [-> _].
Qed.

(** X21. The assembler drops nothing from a snapshot that a crawl has
    written: every page is kept, and the document has one entry and one
    section per page, in the order of the snapshot. *)
Theorem crawl_snapshot_is_deduplicated (fuel : nat) (w : W)
    (start_url : string) (max_pages : Z) (allowed : gset string)
    (snap : Snapshot)
    (Hrun : crawl BeautifulSoup select urljoin W session_get utc_now
              RobotFileParser rp_parse rp_can_fetch
              fuel w start_url max_pages allowed
            = Finished snap) :
  dedup (snap_pages snap) = snap_pages snap
  /\ build_md_lines snap =
       head_lines (default "" (snap_fetched_at_utc snap))
                  (default "" (snap_start_url snap))
       ++ map toc_line (snap_pages snap)
       ++ [ ""; "---"; "" ]
       ++ flat_map section_lines (snap_pages snap).
Proof.
  unfold crawl in Hrun.
  destruct (crawl_loop BeautifulSoup select urljoin W session_get
              RobotFileParser rp_parse rp_can_fetch
              fuel w start_url max_pages allowed) as [st| |] eqn:E; [|done..].
  injection Hrun as <-.
  destruct (crawl_loop_setup _ _ _ _ _ _ E) as (w1 & rp & u0 & Hrp & Hu0).
  pose proof (crawl_loop_inv_more _ _ _ _ _ _ _ _ _ Hrp Hu0 E)
    as (Hf & _ & Hsub & _).
  destruct (crawl_loop_inv BeautifulSoup select urljoin W session_get
              RobotFileParser rp_parse rp_can_fetch _ _ _ _ _ _ E)
    as [(Hnd & _) _].
  assert (Hd : dedup (pages st) = pages st).
  { rewrite dedup_keep. apply keep_all.
    - apply (sublist_NoDup _ (fetched st)); [done|].
      by apply sublist_urls.
    - intros p Hp. destruct (page_url_fetched st p Hsub Hp) as (u & Hu & Hin).
      destruct (Hf u Hin) as (Hpol & _ & _).
      destruct (policy_page_default_host u Hpol) as [_ Hne].
      rewrite Hu. simpl. split; [by destruct u|set_solver]. }
  split; [done|]. rewrite build_md_lines_eq. simpl. by rewrite Hd.
Qed.

End CrawlerMore.


Lemma crawl_respects_robots_witness :
  ("https://support.google.com/youtube/b" ∉ fetched example_strict_end)
  /\ (forall p, p ∈ pages example_strict_end ->
        page_url p <> Some "https://support.google.com/youtube/b").
Proof.
  apply (crawl_respects_robots example_parser example_select example_urljoin nat
           example_get (list string) (fun lines => lines) example_strict_can_fetch
           10 0 1 [] example_start 5 DEFAULT_ALLOWED_HOSTS example_strict_end
           "https://support.google.com/youtube/b");
    vm_compute; reflexivity.
Defined.

Lemma crawl_requests_policy_pages_witness :
  is_probably_policy_page "https://support.google.com/youtube/b" = Some true
  /\ same_host "https://support.google.com/youtube/b" DEFAULT_ALLOWED_HOSTS
     = Some true
  /\ same_host "https://support.google.com/youtube/b" DEFAULT_ALLOWED_HOSTS
     = Some true
  /\ (forall p, p ∈ pages example_end_5 ->
        exists u, page_url p = Some u /\ u ∈ fetched example_end_5).
Proof.
  apply (crawl_requests_policy_pages example_parser example_select
           example_urljoin nat example_get unit example_rp_parse
           example_can_fetch 10 0 example_start 5 DEFAULT_ALLOWED_HOSTS
           example_end_5 "https://support.google.com/youtube/b").
  - vm_compute. reflexivity.
  - right. left.
Defined.

Lemma crawl_urls_normalized_witness :
  (forall u, u ∈ fetched example_end_5 -> normalized u)
  /\ (forall u, u ∈ queue example_end_5 -> normalized u)
  /\ (forall p, p ∈ pages example_end_5 ->
        exists u, page_url p = Some u /\ normalized u /\ u <> "").
Proof.
  apply (crawl_urls_normalized example_parser example_select example_urljoin nat
           example_get unit example_rp_parse example_can_fetch
           10 0 example_start 5 DEFAULT_ALLOWED_HOSTS example_end_5).
  vm_compute. reflexivity.
Defined.

Lemma crawl_pages_from_html_responses_witness :
  page_of_response example_parser example_select nat example_get
    (mkPage (Some "https://support.google.com/youtube/b") (Some "Page B")
       (Some (fst (extract_main_text example_parser example_select "B")
              +:+ Py.nl +:+ "link" +:+ Py.nl +:+ "link" +:+ Py.nl +:+ "link"))).
Proof.
  apply (crawl_pages_from_html_responses example_parser example_select
           example_urljoin nat example_get unit example_rp_parse
           example_can_fetch 10 0 example_start 5 DEFAULT_ALLOWED_HOSTS
           example_end_5).
  - vm_compute. reflexivity.
  - right. left.
Defined.

Lemma crawl_pages_in_fetch_order_witness :
  map page_url (pages example_end_5) `sublist_of` map Some (fetched example_end_5)
  /\ (length (pages example_end_5) <= length (fetched example_end_5))%nat.
Proof.
  apply (crawl_pages_in_fetch_order example_parser example_select
           example_urljoin nat example_get unit example_rp_parse
           example_can_fetch 10 0 example_start 5 DEFAULT_ALLOWED_HOSTS
           example_end_5).
  vm_compute. reflexivity.
Defined.

Lemma crawl_starts_with_seed_witness :
  (fetched example_end_5 = []
   \/ exists rest,
        fetched example_end_5 = "https://support.google.com/youtube/a" :: rest)
  /\ (pages example_end_5 = []
      \/ exists p ps,
           pages example_end_5 = p :: ps
           /\ page_url p = Some "https://support.google.com/youtube/a")
  /\ (pages example_end_5 = [] ->
      fetched example_end_5 = []
      \/ fetched example_end_5 = [ "https://support.google.com/youtube/a" ]).
Proof.
  apply (crawl_starts_with_seed example_parser example_select example_urljoin nat
           example_get unit example_rp_parse example_can_fetch
           10 0 example_start "https://support.google.com/youtube/a" 5
           DEFAULT_ALLOWED_HOSTS example_end_5).
  - reflexivity.
  - vm_compute. reflexivity.
Defined.


Lemma crawl_snapshot_is_deduplicated_witness :
  dedup (snap_pages example_snapshot) = snap_pages example_snapshot
  /\ build_md_lines example_snapshot =
       head_lines (default "" (snap_fetched_at_utc example_snapshot))
                  (default "" (snap_start_url example_snapshot))
       ++ map toc_line (snap_pages example_snapshot)
       ++ [ ""; "---"; "" ]
       ++ flat_map section_lines (snap_pages example_snapshot).
Proof.
  apply (crawl_snapshot_is_deduplicated example_parser example_select
           example_urljoin nat example_get example_now unit example_rp_parse
           example_can_fetch 10 0 example_start 5 DEFAULT_ALLOWED_HOSTS
           example_snapshot).
  vm_compute. reflexivity.
Defined.


(** *** build.py: [run] and [main] *)

Lemma docx_is_not_pdf (outdir : string) : pdf_command outdir <> docx_command outdir.
Proof. unfold pdf_command, docx_command. intros H. discriminate H. Qed.

Section AssemblerMore.

Context {OS : Type}
  (makedirs : OS -> string -> option OS)
  (read_json : OS -> string -> option Snapshot)
  (write_file : OS -> string -> string -> option OS)
  (subprocess_run : OS -> list string -> option (OS * (Z * string * string))).

Lemma run_cases (os : OS) (trace : list event) (cmd : list string) st r :
  run OS subprocess_run (os, trace) cmd = (st, r) ->
  snd st = trace ++ [ EvRun cmd ]
  /\ ((subprocess_run os cmd = None /\ r = Err OtherError /\ fst st = os)
      \/ (exists rc out err,
            subprocess_run os cmd = Some (fst st, (rc, out, err))
            /\ ((rc <> 0%Z
                 /\ r = Err (RuntimeError
                          ("Command failed: " +:+ Py.join " " cmd +:+ Py.nl +:+ err)))
                \/ (rc = 0%Z /\ r = Ok out)))).
Proof.
  unfold run. destruct (subprocess_run os cmd) as [[os' [[rc out] err]]|].
  - destruct (Z.eqb_spec rc 0) as [E|E]; simpl; intros [= <- <-]; simpl;
      (split; [reflexivity|]); right; exists rc, out, err;
      (split; [reflexivity|]); [right|left]; done.
  - intros [= <- <-]. simpl. split; [reflexivity|]. left. done.
Qed.

(** X22. The converter is only started once the
    directory exists, the snapshot has been read and the Markdown of the
    snapshot has been written to [master.md] of the output directory; the
    first converter call is the DOCX one, and the PDF call is only made
    after the DOCX call returned code 0. *)
Theorem main_converts_written_markdown
  (os os' : OS) (inp outdir : string) (trace : list event) (r : result unit)
  (cmd : list string)
  (Hmain : main OS makedirs read_json write_file subprocess_run
             (os, []) inp outdir = ((os', trace), r))
  (Hcmd : EvRun cmd ∈ trace) :
  exists os1 data os2 rest,
    makedirs os outdir = Some os1
    /\ read_json os1 inp = Some data
    /\ write_file os1 (path_join outdir "master.md") (build_md data) = Some os2
    /\ trace = [ EvMakedirs outdir; EvRead inp;
                 EvWrite (path_join outdir "master.md") (build_md data);
                 EvRun (docx_command outdir) ] ++ rest
    /\ (cmd = docx_command outdir \/ cmd = pdf_command outdir)
    /\ (cmd = pdf_command outdir ->
        exists os3 out err,
          subprocess_run os2 (docx_command outdir) = Some (os3, (0%Z, out, err))).
Proof.
  revert Hmain. unfold main.
  destruct (makedirs os outdir) as [os1|] eqn:E1; cbn beta iota zeta.
  2:{ intros [= _ <- _]. set_solver. }
  destruct (read_json os1 inp) as [data|] eqn:E2; cbn beta iota zeta.
  2:{ intros [= _ <- _]. set_solver. }
  destruct (write_file os1 _ _) as [os2|] eqn:E3; cbn beta iota zeta.
  2:{ intros [= _ <- _]. set_solver. }
  fold (docx_command outdir). fold (pdf_command outdir).
  match goal with
  | |- context [run OS subprocess_run ?s (docx_command outdir)] =>
      destruct (run OS subprocess_run s (docx_command outdir))
        as [[os3 tr3] r3] eqn:R1
  end.
  apply run_cases in R1 as [T1 R1]. simpl in T1, R1. subst tr3.
  destruct r3 as [out1|e1].
  - destruct (run OS subprocess_run (os3, _) (pdf_command outdir))
      as [[os4 tr4] r4] eqn:R2.
    apply run_cases in R2 as [T2 _]. simpl in T2. subst tr4.
    assert (Hd : exists out err,
               subprocess_run os2 (docx_command outdir) = Some (os3, (0%Z, out, err))).
    { destruct R1 as [(_ & [=] & _)|(rc & out & err & Hs & [[_ [=]]|[-> _]])].
      by exists out, err. }
    destruct r4 as [out2|e2]; intros [= _ <- _].
    + exists os1, data, os2,
        [ EvRun (pdf_command outdir);
          EvPrint ("Wrote: " +:+ path_join outdir "master.md" +:+ Py.nl
                   +:+ "Wrote: " +:+ path_join outdir "master.docx" +:+ Py.nl
                   +:+ "Wrote: " +:+ path_join outdir "master.pdf") ].
      repeat (split; [done|]). split.
      * simpl in Hcmd. set_solver.
      * intros _. destruct Hd as (out & err & Hd). by exists os3, out, err.
    + exists os1, data, os2, [ EvRun (pdf_command outdir) ].
      repeat (split; [done|]). split.
      * simpl in Hcmd. set_solver.
      * intros _. destruct Hd as (out & err & Hd). by exists os3, out, err.
  - intros [= _ <- _]. exists os1, data, os2, [].
    repeat (split; [done|]).
    assert (cmd = docx_command outdir) as -> by (simpl in Hcmd; set_solver).
    split; [by left|]. intros H. symmetry in H. by apply docx_is_not_pdf in H.
Qed.


End AssemblerMore.

Lemma main_converts_written_markdown_witness :
  exists os1 data os2 rest,
    example_makedirs [] "dist" = Some os1
    /\ example_read_json os1 "data/pages.json" = Some data
    /\ example_write_file os1 (path_join "dist" "master.md") (build_md data)
       = Some os2
    /\ snd (fst (example_main ([], []) "data/pages.json" "dist"))
       = [ EvMakedirs "dist"; EvRead "data/pages.json";
           EvWrite (path_join "dist" "master.md") (build_md data);
           EvRun (docx_command "dist") ] ++ rest
    /\ (pdf_command "dist" = docx_command "dist"
        \/ pdf_command "dist" = pdf_command "dist")
    /\ (pdf_command "dist" = pdf_command "dist" ->
        exists os3 out err,
          example_subprocess_run os2 (docx_command "dist")
          = Some (os3, (0%Z, out, err))).
Proof.
  apply (main_converts_written_markdown example_makedirs example_read_json
           example_write_file example_subprocess_run
           [] (fst (fst (example_main ([], []) "data/pages.json" "dist")))
           "data/pages.json" "dist"
           (snd (fst (example_main ([], []) "data/pages.json" "dist")))
           (snd (example_main ([], []) "data/pages.json" "dist"))
           (pdf_command "dist")).
  - vm_compute. reflexivity.
  - vm_compute. do 4 right. left.
Defined.


